(** * Step Masters: the challenge verification engine of [utils.js]

    A shallow embedding of the challenge logic of the app (challenge
    catalogue, challenge generation, tracking state and the four detectors
    behind [verifyChallengeCompletion]) and of the polling tick of
    [ChallengeScreen] in [App.js], followed by the properties of the
    specification that were checked against it.

    Modelling conventions.
    - A JavaScript number is an exact rational ([Q]): every value the
      code manipulates here is a sum, product or quotient of sensor
      readings and decimal constants.  Rounding, NaN and the infinities
      of IEEE doubles are outside the model (a division by zero yields
      [0], as [Qdiv] does).  The step counter is a natural (it starts at
      0 and only [stepCount++] and the reset to 0 write it), a timestamp
      of [Date.now()] is an integer number of milliseconds.
    - [Math.sqrt] and [Math.atan2] are parameters of the development
      (Section variables); [Math.PI] is the decimal constant JavaScript
      prints for it.
    - The module-level [let] variables of the source are the fields of
      one record, [Tracking], threaded through every detector; a tick
      returns its completion, the tracking state it leaves behind and the
      sounds it asked [playSound] for.
    - [Date.now()] and [Math.random()] are inputs of the functions that
      call them. *)

From Stdlib Require Import List String Bool Arith ZArith Lia.
From Stdlib Require Import QArith Qabs Qminmax Qround Lqa.
Import ListNotations.

Local Open Scope Q_scope.
Local Open Scope string_scope.

(** ** JavaScript operators on numbers *)

Module JS.

(** [a > b], [a < b], [a >= b], [a <= b]. *)
Definition gt (a b : Q) : bool := negb (Qle_bool a b).
Definition lt (a b : Q) : bool := negb (Qle_bool b a).
Definition ge (a b : Q) : bool := Qle_bool b a.
Definition le (a b : Q) : bool := Qle_bool a b.

(** [a === b] on numbers. *)
Definition eqn (a b : Q) : bool := Qeq_bool a b.

(** Truthiness of a possibly undefined number: [undefined] and [0] are
    falsy. *)
Definition truthy (v : option Q) : bool :=
  match v with
  | Some q => negb (Qeq_bool q 0)
  | None => false
  end.

(** Truthiness of a string: only the empty string is falsy. *)
Definition truthy_str (s : string) : bool := negb (String.eqb s "").

Definition Math_PI : Q := 3141592653589793 # 1000000000000000.
Definition Math_abs (a : Q) : Q := Qabs a.
Definition Math_min (a b : Q) : Q := Qmin a b.
Definition Math_max (a b : Q) : Q := Qmax a b.
Definition Math_pow2 (a : Q) : Q := a ^ 2.
Definition Math_floor (a : Q) : Z := Qfloor a.

(** A natural number read as a JavaScript number. *)
Definition num (n : nat) : Q := inject_Z (Z.of_nat n).

(** [arr[i]] for an integer [i]: [undefined] outside the array. *)
Definition index {A : Type} (arr : list A) (i : Z) : option A :=
  if (i <? 0)%Z then None else nth_error arr (Z.to_nat i).

(** How a call ends: with a value, or with a [TypeError] raised by a
    property read on [undefined]. *)
Inductive Completion (A : Type) : Type :=
| Normal (a : A)
| TypeError.
Arguments Normal {A} a.
Arguments TypeError {A}.

End JS.
Import JS.

(** ** Sensor service *)

Record Vec3 : Type := mkVec3 { x : Q; y : Q; z : Q }.

Record SensorData : Type := mkSensorData {
  accelerometer : Vec3;
  gyroscope : Vec3;
  magnetometer : Vec3
}.

(** The three availability flags of [availableSensors], which is all
    [generateChallenge] reads of [getSensorStatus()]. *)
Record SensorStatus : Type := mkSensorStatus {
  has_accelerometer : bool;
  has_gyroscope : bool;
  has_magnetometer : bool
}.

(** ** Sound service: the sounds [playSound] can be asked for *)

Inductive SOUND_TYPES : Type :=
| CHALLENGE_START
| CHALLENGE_COMPLETE
| CHALLENGE_FAIL
| STEP_DETECTED
| TILT_DETECTED
| DIRECTION_MATCHED
| UI_CLICK.

(** ** Challenge logic: catalogue *)

Module CHALLENGE_TYPES.
Definition RUN : string := "RUN".
Definition ROTATE : string := "ROTATE".
Definition TILT : string := "TILT".
Definition DIRECTION : string := "DIRECTION".
End CHALLENGE_TYPES.

(** The [direction] property: a number in a ROTATE template, a compass
    label in a DIRECTION template, absent elsewhere. *)
Inductive DirectionField : Type :=
| DirUndefined
| DirNumber (n : Q)
| DirLabel (s : string).

(** A challenge object.  A property that a template does not set is
    [None] ([undefined]). *)
Record Challenge : Type := mkChallenge {
  type : option string;
  instruction : option string;
  hint : option string;
  count : option Q;
  intensity : option Q;
  degrees : option Q;
  direction : DirectionField;
  directions : option (list string);
  duration : option Q;
  tolerance : option Q
}.

Definition runTemplate (i : string) (c : Q) (k : Q) (h : string) : Challenge :=
  mkChallenge None (Some i) (Some h) (Some c) (Some k) None DirUndefined None None None.

Definition rotateTemplate (i : string) (d : Q) (dir : Q) (h : string) : Challenge :=
  mkChallenge None (Some i) (Some h) None None (Some d) (DirNumber dir) None None None.

Definition tiltTemplate (i : string) (ds : list string) (dur : option Q) (h : string)
  : Challenge :=
  mkChallenge None (Some i) (Some h) None None None DirUndefined (Some ds) dur None.

Definition directionTemplate (i : string) (d : string) (tol : Q) (h : string) : Challenge :=
  mkChallenge None (Some i) (Some h) None None None (DirLabel d) None None (Some tol).

Definition CHALLENGES_RUN : list Challenge :=
  [ runTemplate "Run in place for 3 seconds" 3 1.5 "Move up and down quickly";
    runTemplate "Take 5 steps forward" 5 1.2 "Step forward with your device";
    runTemplate "Jump 3 times" 3 2.0 "Quick vertical movements";
    runTemplate "March in place for 5 seconds" 5 1.3 "Raise knees high" ].

Definition CHALLENGES_ROTATE : list Challenge :=
  [ rotateTemplate "Rotate device 360° clockwise" 360 1
      "Turn your device in a full circle";
    rotateTemplate "Rotate device 360° counter-clockwise" 360 (-1)
      "Turn your device in a full circle in the opposite direction";
    rotateTemplate "Rotate device 180° and back" 180 0
      "Turn halfway around and return";
    rotateTemplate "Spin around with your device" 360 0 "Turn your whole body" ].

Definition CHALLENGES_TILT : list Challenge :=
  [ tiltTemplate "Tilt device left then right" ["left"; "right"] None
      "Tilt from side to side";
    tiltTemplate "Tilt device forward then backward" ["forward"; "backward"] None
      "Tilt forward and backward";
    tiltTemplate "Tilt device in a circle" ["left"; "forward"; "right"; "backward"] None
      "Move in a circular pattern";
    tiltTemplate "Hold device tilted left for 3 seconds" ["left"] (Some 3)
      "Keep it steady" ].

Definition CHALLENGES_DIRECTION : list Challenge :=
  [ directionTemplate "Face North" "N" 20 "Use the compass to find North";
    directionTemplate "Face East" "E" 20 "Use the compass to find East";
    directionTemplate "Face South" "S" 20 "Use the compass to find South";
    directionTemplate "Face West" "W" 20 "Use the compass to find West";
    directionTemplate "Rotate slowly to face South-East" "SE" 20
      "Between South and East" ].

(** [CHALLENGES[key]]: the table has the four keys of [CHALLENGE_TYPES]. *)
Definition CHALLENGES (key : option string) : option (list Challenge) :=
  match key with
  | None => None
  | Some k =>
      if String.eqb k CHALLENGE_TYPES.RUN then Some CHALLENGES_RUN
      else if String.eqb k CHALLENGE_TYPES.ROTATE then Some CHALLENGES_ROTATE
      else if String.eqb k CHALLENGE_TYPES.TILT then Some CHALLENGES_TILT
      else if String.eqb k CHALLENGE_TYPES.DIRECTION then Some CHALLENGES_DIRECTION
      else None
  end.

Record Thresholds : Type := mkThresholds {
  STEP_MAGNITUDE : Q;
  ROTATION_SPEED : Q;
  TILT_ANGLE : Q;
  DIRECTION_TOLERANCE : Q
}.

Definition THRESHOLDS : Thresholds := mkThresholds 1.2 0.5 0.5 20.

(** ** Challenge logic: generation *)

(** [{ type: selectedType, ...selectedChallenge }]; spreading [undefined]
    adds nothing. *)
Definition withType (selectedType : option string) (selectedChallenge : option Challenge)
  : Challenge :=
  match selectedChallenge with
  | Some c =>
      mkChallenge selectedType (instruction c) (hint c) (count c) (intensity c)
        (degrees c) (direction c) (directions c) (duration c) (tolerance c)
  | None =>
      mkChallenge selectedType None None None None None DirUndefined None None None
  end.

Definition basicChallenge : Challenge :=
  mkChallenge (Some "BASIC") (Some "Shake your device")
    (Some "No advanced sensors detected, just shake the device")
    None None None DirUndefined None None None.

Definition availableChallengeTypes (sensors : SensorStatus) : list string :=
  (if has_accelerometer sensors then [CHALLENGE_TYPES.RUN] else [])
  ++ (if has_gyroscope sensors then [CHALLENGE_TYPES.ROTATE; CHALLENGE_TYPES.TILT] else [])
  ++ (if has_magnetometer sensors then [CHALLENGE_TYPES.DIRECTION] else []).

(** [generateChallenge()], with the sensor status it reads and the two
    values [Math.random()] returns as inputs ([random1] for the type,
    [random2] for the template). *)
Definition generateChallenge (sensors : SensorStatus) (random1 random2 : Q)
  : Completion Challenge :=
  let types := availableChallengeTypes sensors in
  if Nat.eqb (List.length types) 0 then Normal basicChallenge
  else
    let randomTypeIndex := Math_floor (random1 * num (List.length types)) in
    let selectedType := index types randomTypeIndex in
    match CHALLENGES selectedType with
    | None => TypeError
    | Some challengesForType =>
        let randomChallengeIndex :=
          Math_floor (random2 * num (List.length challengesForType)) in
        let selectedChallenge := index challengesForType randomChallengeIndex in
        Normal (withType selectedType selectedChallenge)
    end.

(** ** Challenge logic: tracking state *)

Record VerificationResult : Type := mkResult { completed : bool; performance : Q }.

(** The variables that "track state between checks". *)
Record Tracking : Type := mkTracking {
  lastAccelMagnitude : Q;
  stepCount : nat;
  rotationProgress : Q;
  tiltStates : list string;
  directionMatched : bool;
  lastDirectionMatchTime : Z;
  directionMatchDuration : Q
}.

Definition set_lastAccelMagnitude (v : Q) (t : Tracking) : Tracking :=
  mkTracking v (stepCount t) (rotationProgress t) (tiltStates t)
    (directionMatched t) (lastDirectionMatchTime t) (directionMatchDuration t).

Definition set_stepCount (v : nat) (t : Tracking) : Tracking :=
  mkTracking (lastAccelMagnitude t) v (rotationProgress t) (tiltStates t)
    (directionMatched t) (lastDirectionMatchTime t) (directionMatchDuration t).

Definition set_rotationProgress (v : Q) (t : Tracking) : Tracking :=
  mkTracking (lastAccelMagnitude t) (stepCount t) v (tiltStates t)
    (directionMatched t) (lastDirectionMatchTime t) (directionMatchDuration t).

Definition set_tiltStates (v : list string) (t : Tracking) : Tracking :=
  mkTracking (lastAccelMagnitude t) (stepCount t) (rotationProgress t) v
    (directionMatched t) (lastDirectionMatchTime t) (directionMatchDuration t).

Definition set_directionMatched (v : bool) (t : Tracking) : Tracking :=
  mkTracking (lastAccelMagnitude t) (stepCount t) (rotationProgress t) (tiltStates t)
    v (lastDirectionMatchTime t) (directionMatchDuration t).

Definition set_lastDirectionMatchTime (v : Z) (t : Tracking) : Tracking :=
  mkTracking (lastAccelMagnitude t) (stepCount t) (rotationProgress t) (tiltStates t)
    (directionMatched t) v (directionMatchDuration t).

Definition set_directionMatchDuration (v : Q) (t : Tracking) : Tracking :=
  mkTracking (lastAccelMagnitude t) (stepCount t) (rotationProgress t) (tiltStates t)
    (directionMatched t) (lastDirectionMatchTime t) v.

Definition initialTracking : Tracking := mkTracking 0 0 0 [] false 0 0.

(** Reset tracking variables when a new challenge starts. *)
Definition resetChallengeTracking (_ : Tracking) : Tracking := initialTracking.

(** What one call of a detector does: how it ends, the tracking state it
    leaves and the sounds it passed to [playSound], in order. *)
Record Tick : Type := mkTick {
  outcome : Completion VerificationResult;
  tracking : Tracking;
  sounds : list SOUND_TYPES
}.

Definition returns (c : bool) (p : Q) (t : Tracking) (s : list SOUND_TYPES) : Tick :=
  mkTick (Normal (mkResult c p)) t s.

(** ** Challenge logic: the detectors *)

Definition numberOf (v : option Q) : Q :=
  match v with
  | Some q => q
  | None => 0
  end.

(** Helper function to convert direction names to heading angles. *)
Definition getHeadingFromDirection (d : DirectionField) : Q :=
  match d with
  | DirLabel s =>
      if String.eqb s "N" then 0
      else if String.eqb s "NE" then 45
      else if String.eqb s "E" then 90
      else if String.eqb s "SE" then 135
      else if String.eqb s "S" then 180
      else if String.eqb s "SW" then 225
      else if String.eqb s "W" then 270
      else if String.eqb s "NW" then 315
      else 0
  | _ => 0
  end.

(** The axis value [verifyRotateChallenge] selects from the gyroscope. *)
Definition rotationAxisOf (challenge : Challenge) (gyro : Vec3) : Q :=
  match direction challenge with
  | DirNumber n =>
      if eqn n 1 then z gyro
      else if eqn n (-1) then - z gyro
      else Math_abs (z gyro)
  | _ => Math_abs (z gyro)
  end.

(** Verify rotation challenges. *)
Definition verifyRotateChallenge (challenge : Challenge) (gyro : Vec3)
  (thresholds : Thresholds) (st : Tracking) : Tick :=
  let rotationAxis := rotationAxisOf challenge gyro in
  let st :=
    if gt (Math_abs rotationAxis) (ROTATION_SPEED thresholds)
    then set_rotationProgress
           (rotationProgress st + Math_abs rotationAxis * (180 / Math_PI) / 10) st
    else st in
  if truthy (degrees challenge)
     && ge (rotationProgress st) (numberOf (degrees challenge))
  then
    let performance :=
      Math_min 1 (numberOf (degrees challenge) / rotationProgress st) in
    returns true performance (set_rotationProgress 0 st) []
  else
    returns false
      (if truthy (degrees challenge)
       then rotationProgress st / numberOf (degrees challenge) else 0)
      st [].

(** The classification of the gyroscope sample at the head of
    [verifyTiltChallenge]; the empty string stands for "no tilt". *)
Definition detectTilt (gyro : Vec3) (thresholds : Thresholds) : string :=
  if gt (x gyro) (TILT_ANGLE thresholds) then "forward"
  else if lt (x gyro) (- TILT_ANGLE thresholds) then "backward"
  else if gt (y gyro) (TILT_ANGLE thresholds) then "right"
  else if lt (y gyro) (- TILT_ANGLE thresholds) then "left"
  else "".

(** "If we detected a tilt and it's new". *)
Definition isNewTilt (tiltDetected : string) (states : list string) : bool :=
  truthy_str tiltDetected
  && (Nat.eqb (List.length states) 0
      || match nth_error states (List.length states - 1) with
         | Some l => negb (String.eqb l tiltDetected)
         | None => true
         end).

(** The [for] loop of the sequence check: [states] is what is left of
    [tiltStates] from index [i] on, the result is the final
    [directionIndex]. *)
Fixpoint scanDirections (states required : list string) (directionIndex : nat) : nat :=
  match states with
  | [] => directionIndex
  | s :: rest =>
      if Nat.ltb directionIndex (List.length required) then
        match nth_error required directionIndex with
        | Some d =>
            if String.eqb s d
            then scanDirections rest required (S directionIndex)
            else scanDirections rest required directionIndex
        | None => directionIndex
        end
      else directionIndex
  end.

(** [challenge.duration && tiltDetected === challenge.directions[0]]:
    reading [directions[0]] raises when [directions] is undefined. *)
Definition holdCondition (challenge : Challenge) (tiltDetected : string)
  : Completion bool :=
  if truthy (duration challenge) then
    match directions challenge with
    | None => TypeError
    | Some ds =>
        Normal match nth_error ds 0 with
               | Some d => String.eqb tiltDetected d
               | None => false
               end
    end
  else Normal false.

(** The second half of [verifyTiltChallenge]: the ordered-sequence check
    and, when it does not complete, the partial progress. *)
Definition tiltSequence (challenge : Challenge) (st : Tracking)
  (played : list SOUND_TYPES) : Tick :=
  match directions challenge with
  | Some required =>
      let directionIndex := scanDirections (tiltStates st) required 0 in
      let allDirectionsMatched := Nat.eqb directionIndex (List.length required) in
      if allDirectionsMatched
      then returns true 1 (set_tiltStates [] st) played
      else
        returns false
          (Math_min (num (List.length (tiltStates st)) / num (List.length required)) 1)
          st played
  | None =>
      returns false
        (if truthy (duration challenge)
         then directionMatchDuration st / numberOf (duration challenge) else 0)
        st played
  end.

(** Verify tilt challenges; [now] is what [Date.now()] returns during the
    call. *)
Definition verifyTiltChallenge (challenge : Challenge) (gyro : Vec3)
  (thresholds : Thresholds) (now : Z) (st : Tracking) : Tick :=
  let tiltDetected := detectTilt gyro thresholds in
  let isNew := isNewTilt tiltDetected (tiltStates st) in
  let st := if isNew then set_tiltStates (tiltStates st ++ [tiltDetected]) st else st in
  let played := if isNew then [TILT_DETECTED] else [] in
  match holdCondition challenge tiltDetected with
  | TypeError => mkTick TypeError st played
  | Normal false =>
      tiltSequence challenge (set_lastDirectionMatchTime 0%Z st) played
  | Normal true =>
      if Z.eqb (lastDirectionMatchTime st) 0
      then tiltSequence challenge (set_lastDirectionMatchTime now st) played
      else
        let held := inject_Z (now - lastDirectionMatchTime st) / 1000 in
        let st := set_directionMatchDuration held st in
        if ge (directionMatchDuration st) (numberOf (duration challenge))
        then
          returns true 1
            (set_directionMatchDuration 0
               (set_lastDirectionMatchTime 0%Z (set_tiltStates [] st)))
            played
        else tiltSequence challenge st played
  end.

Definition adjustedThresholds (sensitivityMultiplier : Q) : Thresholds :=
  mkThresholds
    (STEP_MAGNITUDE THRESHOLDS / sensitivityMultiplier)
    (ROTATION_SPEED THRESHOLDS / sensitivityMultiplier)
    (TILT_ANGLE THRESHOLDS / sensitivityMultiplier)
    (DIRECTION_TOLERANCE THRESHOLDS * sensitivityMultiplier).

(** Shorter-arc difference between two headings in degrees. *)
Definition headingDiff (normalizedHeading targetHeading : Q) : Q :=
  let diff := Math_abs (normalizedHeading - targetHeading) in
  if gt diff 180 then 360 - diff else diff.

Section Engine.

(** [Math.sqrt] and [Math.atan2]. *)
Variable Math_sqrt : Q -> Q.
Variable Math_atan2 : Q -> Q -> Q.

(** Euclidean magnitude of a sample. *)
Definition magnitudeOf (v : Vec3) : Q :=
  Math_sqrt (Math_pow2 (x v) + Math_pow2 (y v) + Math_pow2 (z v)).

(** Verify running/stepping challenges. *)
Definition verifyRunChallenge (challenge : Challenge) (accel : Vec3)
  (thresholds : Thresholds) (st : Tracking) : Tick :=
  let magnitude := magnitudeOf accel in
  let isStep :=
    gt magnitude (STEP_MAGNITUDE thresholds)
    && le (lastAccelMagnitude st) (STEP_MAGNITUDE thresholds) in
  let st := set_lastAccelMagnitude magnitude st in
  let st := if isStep then set_stepCount (S (stepCount st)) st else st in
  let played := if isStep then [STEP_DETECTED] else [] in
  if truthy (count challenge)
     && ge (num (stepCount st)) (numberOf (count challenge))
  then
    let performance :=
      Math_min 1 (num (stepCount st) / numberOf (count challenge)) in
    returns true performance (set_stepCount 0 st) played
  else
    returns false
      (if truthy (count challenge)
       then num (stepCount st) / numberOf (count challenge) else 0)
      st played.

Definition normalizedHeadingOf (magnet : Vec3) : Q :=
  let heading := Math_atan2 (y magnet) (x magnet) * (180 / Math_PI) in
  if lt heading 0 then heading + 360 else heading.

(** The shorter-arc difference between the heading of the sample and the
    target of the challenge, the tolerance that applies (the template's
    own, else the adjusted default), and the match test. *)
Definition diffOf (challenge : Challenge) (magnet : Vec3) : Q :=
  let normalizedHeading := normalizedHeadingOf magnet in
  let targetHeading := getHeadingFromDirection (direction challenge) in
  headingDiff normalizedHeading targetHeading.

Definition toleranceOf (challenge : Challenge) (thresholds : Thresholds) : Q :=
  if truthy (tolerance challenge) then numberOf (tolerance challenge)
  else DIRECTION_TOLERANCE thresholds.

Definition isMatchedOf (challenge : Challenge) (magnet : Vec3)
  (thresholds : Thresholds) : bool :=
  le (diffOf challenge magnet) (toleranceOf challenge thresholds).

(** Verify direction challenges; [now] is what [Date.now()] returns
    during the call. *)
Definition verifyDirectionChallenge (challenge : Challenge) (magnet : Vec3)
  (thresholds : Thresholds) (now : Z) (st : Tracking) : Tick :=
  let diff := diffOf challenge magnet in
  let tol := toleranceOf challenge thresholds in
  let isMatched := isMatchedOf challenge magnet thresholds in
  let progress := Math_max 0 (1 - diff / 180) in
  if isMatched then
    if negb (directionMatched st) then
      returns false progress
        (set_lastDirectionMatchTime now (set_directionMatched true st))
        [DIRECTION_MATCHED]
    else
      let holdTime := inject_Z (now - lastDirectionMatchTime st) / 1000 in
      if ge holdTime 2
      then
        returns true (1 - diff / tol)
          (set_lastDirectionMatchTime 0%Z (set_directionMatched false st)) []
      else returns false progress st []
  else
    returns false progress
      (set_lastDirectionMatchTime 0%Z (set_directionMatched false st)) [].

(** One call of the DIRECTION detector per sample, each with the value of
    the clock during the call. *)
Fixpoint pollDirection (challenge : Challenge) (thresholds : Thresholds)
  (samples : list (Z * Vec3)) (st : Tracking) : list Tick :=
  match samples with
  | [] => []
  | (now, magnet) :: rest =>
      let t := verifyDirectionChallenge challenge magnet thresholds now st in
      t :: pollDirection challenge thresholds rest (tracking t)
  end.

Definition typeIs (challenge : Challenge) (k : string) : bool :=
  match type challenge with
  | Some t => String.eqb t k
  | None => false
  end.

(** Verify if the challenge has been completed.  A missing third argument
    ([None]) takes the default value [1.0] of the parameter. *)
Definition verifyChallengeCompletion (challenge : option Challenge)
  (sensorData : option SensorData) (sensitivityMultiplier : option Q)
  (now : Z) (st : Tracking) : Tick :=
  match challenge, sensorData with
  | Some challenge, Some sensorData =>
      let sensitivityMultiplier :=
        match sensitivityMultiplier with
        | Some m => m
        | None => 1
        end in
      let adjusted := adjustedThresholds sensitivityMultiplier in
      if typeIs challenge CHALLENGE_TYPES.RUN then
        verifyRunChallenge challenge (accelerometer sensorData) adjusted st
      else if typeIs challenge CHALLENGE_TYPES.ROTATE then
        verifyRotateChallenge challenge (gyroscope sensorData) adjusted st
      else if typeIs challenge CHALLENGE_TYPES.TILT then
        verifyTiltChallenge challenge (gyroscope sensorData) adjusted now st
      else if typeIs challenge CHALLENGE_TYPES.DIRECTION then
        verifyDirectionChallenge challenge (magnetometer sensorData) adjusted now st
      else
        let magnitude := magnitudeOf (accelerometer sensorData) in
        if gt magnitude 2.5 then returns true 0.7 st []
        else returns false 0 st []
  | _, _ => returns false 0 st []
  end.

(** ** Storage service and the polling tick of [ChallengeScreen] *)

Record DifficultySettings : Type := mkSettings {
  sensitivity : Q;
  timeMultiplier : Q
}.

Definition DEFAULT_SETTINGS : DifficultySettings := mkSettings 1 1.

(** The item of AsyncStorage under [SETTINGS_KEY]. *)
Definition Storage : Type := option DifficultySettings.

Definition setDifficultySettings (settings : DifficultySettings) (_ : Storage)
  : Storage := Some settings.

Definition getDifficultySettings (storage : Storage) : DifficultySettings :=
  match storage with
  | Some s => s
  | None => DEFAULT_SETTINGS
  end.

(** [changeDifficulty(value)] of the settings screen. *)
Definition changeDifficulty (value : string) (storage : Storage) : Storage :=
  let settings :=
    if String.eqb value "easy" then mkSettings 0.7 1.3
    else if String.eqb value "medium" then mkSettings 1.0 1.0
    else if String.eqb value "hard" then mkSettings 1.3 0.7
    else mkSettings 1.0 1.0 in
  setDifficultySettings settings storage.

(** The body of the 100 ms interval of [ChallengeScreen]: it reads the
    latest sensor data and calls [verifyChallengeCompletion] with two
    arguments.  The storage is part of what the callback could read. *)
Definition checkCompletion (storage : Storage) (challenge : Challenge)
  (sensorState : SensorData) (now : Z) (st : Tracking) : Tick :=
  verifyChallengeCompletion (Some challenge) (Some sensorState) None now st.

(** The poll of the RUN detector over a stream of accelerometer samples:
    one call per sample, the tracking state carried from call to call. *)
Fixpoint pollRun (challenge : Challenge) (thresholds : Thresholds)
  (samples : list Vec3) (st : Tracking) : list Tick :=
  match samples with
  | [] => []
  | accel :: rest =>
      let t := verifyRunChallenge challenge accel thresholds st in
      t :: pollRun challenge thresholds rest (tracking t)
  end.

End Engine.

(** ** Observations on ticks and the vocabulary of the specification *)

(** The verdict of a tick; a call that raises has none. *)
Definition completedOf (t : Tick) : bool :=
  match outcome t with
  | Normal r => completed r
  | TypeError => false
  end.

Definition isStepSound (s : SOUND_TYPES) : bool :=
  match s with
  | STEP_DETECTED => true
  | _ => false
  end.

(** Number of step notifications of a tick, and of a run of ticks. *)
Definition stepsDetected (t : Tick) : nat :=
  List.length (filter isStepSound (sounds t)).

Definition totalSteps (ticks : list Tick) : nat :=
  list_sum (map stepsDetected ticks).

(** Rising-edge crossing of [threshold] between two consecutive
    magnitudes. *)
Definition risingEdge (threshold previous current : Q) : bool :=
  le previous threshold && gt current threshold.

(** [Subseq l1 l2]: the items of [l1] occur in [l2] in order, gaps
    allowed. *)
Inductive Subseq {A : Type} : list A -> list A -> Prop :=
| Subseq_nil : forall l, Subseq [] l
| Subseq_skip : forall a l1 l2, Subseq l1 l2 -> Subseq l1 (a :: l2)
| Subseq_take : forall a l1 l2, Subseq l1 l2 -> Subseq (a :: l1) (a :: l2).

(** [k] is the length of the longest prefix of [required] that is matched
    as a subsequence of [recorded]. *)
Definition IsMatchedCount (required recorded : list string) (k : nat) : Prop :=
  (k <= List.length required)%nat
  /\ Subseq (firstn k required) recorded
  /\ forall j, (j <= List.length required)%nat ->
               Subseq (firstn j required) recorded -> (j <= k)%nat.

(** The scan of [scanDirections] on the part of [required] that is still
    to be matched. *)
Fixpoint matchedCount (states remaining : list string) : nat :=
  match states with
  | [] => 0
  | s :: rest =>
      match remaining with
      | [] => 0
      | d :: ds =>
          if String.eqb s d then S (matchedCount rest ds)
          else matchedCount rest remaining
      end
  end.

(** The transition list after the tick has recorded its sample. *)
Definition recordedTransitions (gyro : Vec3) (thresholds : Thresholds)
  (states : list string) : list string :=
  let tiltDetected := detectTilt gyro thresholds in
  if isNewTilt tiltDetected states then states ++ [tiltDetected] else states.

(** ** Polls, samples and challenges used in the statements *)

(** What a tick of the ROTATE detector accumulates before it looks at the
    goal: the sample counts exactly when the absolute value of the
    selected axis value exceeds the speed threshold, and then adds
    [|axis value| * (180/pi) / 10]. *)
Definition rotationAfter (challenge : Challenge) (gyro : Vec3) (T : Thresholds)
  (st : Tracking) : Q :=
  let axis := rotationAxisOf challenge gyro in
  if gt (Math_abs axis) (ROTATION_SPEED T)
  then rotationProgress st + Math_abs axis * (180 / Math_PI) / 10
  else rotationProgress st.

(** One call of the TILT detector per sample, each with the value of the
    clock during the call. *)
Fixpoint pollTilt (challenge : Challenge) (thresholds : Thresholds)
  (samples : list (Z * Vec3)) (st : Tracking) : list Tick :=
  match samples with
  | [] => []
  | (now, gyro) :: rest =>
      let t := verifyTiltChallenge challenge gyro thresholds now st in
      t :: pollTilt challenge thresholds rest (tracking t)
  end.

Definition tiltLeft : Vec3 := mkVec3 0 (-1) 0.
Definition tiltRight : Vec3 := mkVec3 0 1 0.
Definition tiltForward : Vec3 := mkVec3 1 0 0.
Definition tiltBackward : Vec3 := mkVec3 (-1) 0 0.
Definition atRest : Vec3 := mkVec3 0 0 0.

(** The first template of the DIRECTION catalogue, as [generateChallenge]
    returns it: target N, tolerance 20. *)
Definition faceNorth : Challenge :=
  withType (Some CHALLENGE_TYPES.DIRECTION) (nth_error CHALLENGES_DIRECTION 0).

(** The first ROTATE template (clockwise, direction 1), as
    [generateChallenge] returns it. *)
Definition rotateClockwise : Challenge :=
  withType (Some CHALLENGE_TYPES.ROTATE) (nth_error CHALLENGES_ROTATE 0).

(** The first TILT template: left then right. *)
Definition tiltLeftRight : Challenge :=
  withType (Some CHALLENGE_TYPES.TILT) (nth_error CHALLENGES_TILT 0).

(** The first RUN template: three steps. *)
Definition runInPlace : Challenge :=
  withType (Some CHALLENGE_TYPES.RUN) (nth_error CHALLENGES_RUN 0).

(** A square root on the rationals that is exact on the squares of
    rationals, and a stand-in for [Math.atan2] that reads its first
    argument as a heading in degrees: enough to run the RUN and DIRECTION
    detectors on the samples below. *)
Definition sqrtQ (q : Q) : Q := Z.sqrt (Qnum q * Zpos (Qden q)) # Qden q.

Definition atan2Degrees (y _ : Q) : Q := y * Math_PI / 180.

(** ** Further polls and observations *)

(** The tracking state a run of ticks leaves behind, [st] when there was
    no tick. *)
Definition finalTracking (ticks : list Tick) (st : Tracking) : Tracking :=
  fold_left (fun _ t => tracking t) ticks st.

(** Number of rising-edge crossings of [threshold] along a sequence of
    magnitudes that follows the magnitude [previous]. *)
Fixpoint countRisingEdges (threshold previous : Q) (magnitudes : list Q) : nat :=
  match magnitudes with
  | [] => 0
  | m :: rest =>
      ((if risingEdge threshold previous m then 1 else 0)
       + countRisingEdges threshold m rest)%nat
  end.

(** One call of the ROTATE detector per gyroscope sample. *)
Fixpoint pollRotate (challenge : Challenge) (thresholds : Thresholds)
  (samples : list Vec3) (st : Tracking) : list Tick :=
  match samples with
  | [] => []
  | gyro :: rest =>
      let t := verifyRotateChallenge challenge gyro thresholds st in
      t :: pollRotate challenge thresholds rest (tracking t)
  end.

(** The degrees one counted sample adds to the rotation total. *)
Definition rotationStep (gyro : Vec3) : Q :=
  Math_abs (z gyro) * (180 / Math_PI) / 10.

(** The four labels [verifyTiltChallenge] records. *)
Definition tiltLabels : list string := ["forward"; "backward"; "right"; "left"].

(** No two neighbours of the list are equal. *)
Fixpoint noRepeat (l : list string) : Prop :=
  match l with
  | a :: (b :: _) as rest => a <> b /\ noRepeat rest
  | _ => True
  end.

(** A debounced transition list: tilt labels only, no label twice in a
    row. *)
Definition Debounced (l : list string) : Prop :=
  noRepeat l /\ Forall (fun s => In s tiltLabels) l.

(** ** [App.js]: points, countdown, session, results and history *)

(** [Math.round]: to the nearest integer, halves upwards. *)
Definition Math_round (a : Q) : Z := Qfloor (a + (1 # 2)).

(** The points the polling callback of [ChallengeScreen] passes to
    [challengeCompleted] for a completed result. *)
Definition pointsOf (result : VerificationResult) : Z :=
  Math_round (performance result * 100).

(** What the polling callback does with a tick: nothing unless the result
    is completed, and then [challengeCompleted(points)]. *)
Definition completionPoints (t : Tick) : option Z :=
  match outcome t with
  | Normal r => if completed r then Some (pointsOf r) else None
  | TypeError => None
  end.

(** The time limit [generateNewChallenge] sets, in seconds. *)
Definition timeLimitOf (newChallenge : Challenge) : Z :=
  if typeIs newChallenge CHALLENGE_TYPES.RUN then 10
  else if typeIs newChallenge CHALLENGE_TYPES.ROTATE then 8
  else if typeIs newChallenge CHALLENGE_TYPES.TILT then 6
  else if typeIs newChallenge CHALLENGE_TYPES.DIRECTION then 8
  else 15.

(** The updater of the one-second interval of [startChallenge]: the new
    [timeLeft], and whether it called [challengeFailed] (and cleared the
    interval). *)
Definition timerTick (prev : Z) : Z * bool :=
  if (prev <=? 1)%Z then (0%Z, true) else ((prev - 1)%Z, false).

(** [n] firings of the interval, which stops once it has failed the
    challenge. *)
Fixpoint countdown (n : nat) (timeLeft : Z) : Z * bool :=
  match n with
  | O => (timeLeft, false)
  | S k =>
      let (next, failed) := timerTick timeLeft in
      if failed then (next, true) else countdown k next
  end.

(** An entry of [sessionChallenges]: the challenge with the fields the
    three handlers add ([skipped] is absent, hence falsy, unless the
    challenge was skipped). *)
Record SessionEntry : Type := mkEntry {
  entry_challenge : Challenge;
  entry_completed : bool;
  entry_score : Z;
  entry_timeLeft : Z;
  entry_skipped : bool
}.

(** The [score] and [sessionChallenges] states of [ChallengeScreen]. *)
Record Session : Type := mkSession {
  score : Z;
  sessionChallenges : list SessionEntry
}.

Definition startNewSession : Session := mkSession 0 [].

Definition challengeCompleted (challenge : Challenge) (points timeLeft : Z)
  (s : Session) : Session :=
  mkSession (score s + points)
    (sessionChallenges s ++ [mkEntry challenge true points timeLeft false]).

Definition challengeFailed (challenge : Challenge) (s : Session) : Session :=
  mkSession (score s) (sessionChallenges s ++ [mkEntry challenge false 0 0 false]).

Definition skipChallenge (challenge : Challenge) (timeLeft : Z) (s : Session)
  : Session :=
  mkSession (score s)
    (sessionChallenges s ++ [mkEntry challenge false 0 timeLeft true]).

(** What can happen to the challenge on screen. *)
Inductive SessionEvent : Type :=
| Completed (challenge : Challenge) (points timeLeft : Z)
| Failed (challenge : Challenge)
| Skipped (challenge : Challenge) (timeLeft : Z).

Definition handle (s : Session) (e : SessionEvent) : Session :=
  match e with
  | Completed c points timeLeft => challengeCompleted c points timeLeft s
  | Failed c => challengeFailed c s
  | Skipped c timeLeft => skipChallenge c timeLeft s
  end.

(** The session after a sequence of events that follows
    [startNewSession]. *)
Definition playSession (events : list SessionEvent) : Session :=
  fold_left handle events startNewSession.

(** Sum of the scores of the entries, and what an event is worth. *)
Definition sumScores (l : list SessionEntry) : Z :=
  fold_right (fun e acc => (entry_score e + acc)%Z) 0%Z l.

Definition isCompletedEvent (e : SessionEvent) : bool :=
  match e with
  | Completed _ _ _ => true
  | _ => false
  end.

Definition eventPoints (e : SessionEvent) : Z :=
  match e with
  | Completed _ points _ => points
  | _ => 0%Z
  end.

(** The statistics of [ResultScreen]. *)
Record Stats : Type := mkStats {
  total : nat;
  completedCount : nat;
  failedCount : nat;
  skippedCount : nat;
  accuracy : Z
}.

Definition resultStats (challenges : list SessionEntry) : Stats :=
  let total := List.length challenges in
  let completed := List.length (filter entry_completed challenges) in
  let failed :=
    List.length
      (filter (fun c => negb (entry_completed c) && negb (entry_skipped c)) challenges) in
  let skipped := List.length (filter entry_skipped challenges) in
  let accuracy :=
    if Nat.ltb 0 total then Math_round (num completed / num total * 100) else 0%Z in
  mkStats total completed failed skipped accuracy.

(** The record [endSession] saves. *)
Record SessionRecord : Type := mkRecord {
  record_date : string;
  record_score : Z;
  record_challenges : list SessionEntry;
  record_totalChallenges : nat
}.

(** The item of AsyncStorage under [HISTORY_KEY]: absent, or the JSON
    text of a list of records, kept here as the list itself. *)
Definition History : Type := option (list SessionRecord).

(** [arr.slice(-n)]: the last [n] items. *)
Definition sliceLast {A : Type} (n : nat) (arr : list A) : list A :=
  skipn (List.length arr - n) arr.

Definition getHistory (h : History) : list SessionRecord :=
  match h with
  | Some l => l
  | None => []
  end.

(** Save a completed challenge session to history: only the most recent
    50 entries are kept. *)
Definition saveChallenge (challengeData : SessionRecord) (h : History) : History :=
  let existingData := getHistory h in
  let updatedData := (existingData ++ [challengeData])%list in
  Some (sliceLast 50 updatedData).

Definition clearHistory (_ : History) : History := None.

(** [endSession]: a session with at least one entry is saved under the
    date of the call; an empty one is not. *)
Definition endSession (date : string) (s : Session) (h : History) : History :=
  if Nat.ltb 0 (List.length (sessionChallenges s)) then
    saveChallenge
      (mkRecord date (score s) (sessionChallenges s)
         (List.length (sessionChallenges s))) h
  else h.

(** The classification of the stored sensitivity at the end of the [try]
    body of [loadSettings] (lines 1234-1240). *)
Definition difficultyOf (diffSettings : DifficultySettings) : string :=
  if le (sensitivity diffSettings) 0.7 then "easy"
  else if ge (sensitivity diffSettings) 1.3 then "hard"
  else "medium".

(** [getDirectionName] of the sensor display: the compass name shown for
    a heading in degrees. *)
Definition getDirectionName (heading : Q) : option string :=
  let directions := ["N"; "NE"; "E"; "SE"; "S"; "SW"; "W"; "NW"; "N"] in
  index directions (Z.rem (Math_round (heading / 45)) 8).

(** What [HistoryItem] of the history screen shows for a record: the
    entries with a positive score over [totalChallenges] (or the number of
    entries when that is 0), as a percentage. *)
Definition historyCompleted (item : SessionRecord) : nat :=
  List.length (filter (fun c => (0 <? entry_score c)%Z) (record_challenges item)).

Definition historyTotal (item : SessionRecord) : nat :=
  if Nat.eqb (record_totalChallenges item) 0
  then List.length (record_challenges item)
  else record_totalChallenges item.

Definition completionRate (item : SessionRecord) : Z :=
  if Nat.ltb 0 (historyTotal item)
  then Math_round (num (historyCompleted item) / num (historyTotal item) * 100)
  else 0%Z.

(** The value of [stepCount] after the [if (isStep) stepCount++] of a RUN
    tick on a sample of magnitude [magnitude]. *)
Definition countedSteps (threshold magnitude : Q) (st : Tracking) : nat :=
  if risingEdge threshold (lastAccelMagnitude st) magnitude
  then S (stepCount st) else stepCount st.

(** The running count of rising edges along a sequence of magnitudes,
    from the count [counted] and the magnitude [previous]. *)
Fixpoint runningCounts (threshold previous : Q) (counted : nat) (magnitudes : list Q)
  : list nat :=
  match magnitudes with
  | [] => []
  | m :: rest =>
      let counted' :=
        (counted + if risingEdge threshold previous m then 1 else 0)%nat in
      counted' :: runningCounts threshold m counted' rest
  end.

(** The two states of the settings screen that [loadSettings] writes,
    with their initial values. *)
Record SettingsScreen : Type := mkSettingsScreen {
  soundEnabled : bool;
  difficulty : string
}.

Definition initialSettingsScreen : SettingsScreen := mkSettingsScreen true "medium".

(** How a statement of a [try] body ends: normally, with the state it
    leaves, or by raising. *)
Inductive Statement : Type :=
| Next (s : SettingsScreen)
| Raises.

(** A [try] body run statement by statement: the first statement that
    raises ends it, the [catch] logs the error, and the state is what the
    statements before had made it.  The boolean tells whether the [catch]
    ran. *)
Fixpoint tryCatch (body : list (SettingsScreen -> Statement)) (s : SettingsScreen)
  : SettingsScreen * bool :=
  match body with
  | [] => (s, false)
  | statement :: rest =>
      match statement s with
      | Next s' => tryCatch rest s'
      | Raises => (s, true)
      end
  end.

(** The three parts of the [try] body of [loadSettings]: the sound
    setting (the stored text, [true] when the item is missing); the
    expression statement [gs] of line 1231, an identifier declared
    nowhere, whose evaluation raises a ReferenceError; the difficulty,
    classified by [difficultyOf]. *)
Definition loadSound (soundSetting : option string) (s : SettingsScreen) : Statement :=
  Next (mkSettingsScreen
          match soundSetting with
          | None => true
          | Some text => String.eqb text "true"
          end
          (difficulty s)).

Definition strayIdentifier (_ : SettingsScreen) : Statement := Raises.

Definition loadDifficulty (storage : Storage) (s : SettingsScreen) : Statement :=
  Next (mkSettingsScreen (soundEnabled s)
          (difficultyOf (getDifficultySettings storage))).

Definition loadSettings (soundSetting : option string) (storage : Storage)
  (s : SettingsScreen) : SettingsScreen * bool :=
  tryCatch [loadSound soundSetting; strayIdentifier; loadDifficulty storage] s.

(** * Properties *)

(** ** The comparison operators, read as propositions *)

Lemma gt_true_iff (a b : Q) : gt a b = true <-> b < a.
Proof.
  unfold gt. rewrite negb_true_iff. split; intro H.
  - apply Qnot_le_lt. intro Hle. apply Qle_bool_iff in Hle. congruence.
  - destruct (Qle_bool a b) eqn:E; [|reflexivity].
    apply Qle_bool_iff in E. exfalso. apply (Qlt_not_le _ _ H E).
Qed.

Lemma gt_false_iff (a b : Q) : gt a b = false <-> a <= b.
Proof.
  unfold gt. rewrite negb_false_iff. apply Qle_bool_iff.
Qed.

Lemma le_true_iff (a b : Q) : le a b = true <-> a <= b.
Proof. apply Qle_bool_iff. Qed.

Lemma le_false_iff (a b : Q) : le a b = false <-> b < a.
Proof.
  rewrite <- gt_true_iff. unfold gt, le.
  destruct (Qle_bool a b); simpl; intuition congruence.
Qed.

Lemma ge_true_iff (a b : Q) : ge a b = true <-> b <= a.
Proof. apply Qle_bool_iff. Qed.

Lemma ge_false_iff (a b : Q) : ge a b = false <-> a < b.
Proof. unfold ge. apply (le_false_iff b a). Qed.

#[export] Instance gt_compat : Proper (Qeq ==> Qeq ==> eq) gt.
Proof. intros a a' Ha b b' Hb. unfold gt. now rewrite Ha, Hb. Qed.

#[export] Instance le_compat : Proper (Qeq ==> Qeq ==> eq) le.
Proof. intros a a' Ha b b' Hb. unfold le. now rewrite Ha, Hb. Qed.

#[export] Instance ge_compat : Proper (Qeq ==> Qeq ==> eq) ge.
Proof. intros a a' Ha b b' Hb. unfold ge. now rewrite Ha, Hb. Qed.

(** A hold of [d] milliseconds lasts at least two seconds exactly when
    [d] is at least 2000. *)
Lemma hold_two_seconds (d : Z) : ge (inject_Z d / 1000) 2 = true <-> (2000 <= d)%Z.
Proof.
  rewrite ge_true_iff. unfold Qle, Qdiv, Qmult, Qinv, inject_Z. simpl. lia.
Qed.

(** ** ROTATE detector *)

Lemma rotate_tick_progress challenge gyro T st :
  let t := verifyRotateChallenge challenge gyro T st in
  (completedOf t = false -> rotationProgress (tracking t) = rotationAfter challenge gyro T st)
  /\ (completedOf t = true -> rotationProgress (tracking t) = 0).
Proof.
  cbv zeta. unfold verifyRotateChallenge, rotationAfter, completedOf.
  destruct (gt _ _);
    match goal with |- context [if ?c then _ else _] => destruct c end;
    simpl; split; intros; congruence.
Qed.

(** The value the detector tests and adds does not depend on the
    direction of the challenge: it is [|z|] in the three cases. *)
Lemma rotation_axis_direction_blind challenge gyro :
  Math_abs (rotationAxisOf challenge gyro) = Math_abs (z gyro).
Proof.
  unfold rotationAxisOf, Math_abs.
  destruct (z gyro) as [n d].
  destruct (direction challenge) as [|k|s]; try destruct (eqn k 1);
    try destruct (eqn k (-1)); unfold Qabs, Qopp; simpl;
    rewrite ?Z.abs_opp, ?Z.abs_idemp; reflexivity.
Qed.

(** Hence two challenges with the same goal in degrees, whatever their
    directions, are verified alike. *)
Lemma rotate_ignores_direction challenge challenge' gyro T st :
  degrees challenge = degrees challenge' ->
  verifyRotateChallenge challenge gyro T st
  = verifyRotateChallenge challenge' gyro T st.
Proof.
  intro H. unfold verifyRotateChallenge.
  rewrite !rotation_axis_direction_blind, H. reflexivity.
Qed.

(** ** TILT detector *)

Lemma skipn_nth_error {A : Type} (l : list A) (i : nat) :
  (i < List.length l)%nat ->
  exists d, nth_error l i = Some d /\ skipn i l = d :: skipn (S i) l.
Proof.
  revert i. induction l as [|a l IH]; intros i Hi; simpl in Hi; [lia|].
  destruct i as [|i].
  - exists a. split; reflexivity.
  - destruct (IH i) as [d [H1 H2]]; [lia|].
    exists d. split; [exact H1|]. simpl. simpl in H2. exact H2.
Qed.

(** The loop of the source, which walks [required] by index, computes the
    structural scan [matchedCount]. *)
Lemma scanDirections_matchedCount states required :
  forall i, (i <= List.length required)%nat ->
            scanDirections states required i
            = (i + matchedCount states (skipn i required))%nat.
Proof.
  induction states as [|s rest IH]; intros i Hi; simpl.
  - lia.
  - destruct (Nat.ltb_spec i (List.length required)) as [Hlt|Hge].
    + destruct (skipn_nth_error required i Hlt) as [d [Hd Hs]].
      rewrite Hd, Hs. destruct (String.eqb s d).
      * rewrite IH by lia. lia.
      * rewrite IH by lia. rewrite Hs. reflexivity.
    + rewrite skipn_all2 by lia. lia.
Qed.

Lemma scanDirections_from_zero states required :
  scanDirections states required 0 = matchedCount states required.
Proof.
  rewrite scanDirections_matchedCount by lia. reflexivity.
Qed.

Lemma Subseq_tail {A : Type} (a : A) (l1 l2 : list A) :
  Subseq (a :: l1) l2 -> Subseq l1 l2.
Proof.
  intro H. remember (a :: l1) as l eqn:E. revert a l1 E.
  induction H as [l|b l1' l2 H IH|b l1' l2 H IH]; intros a l1 E.
  - discriminate.
  - apply Subseq_skip. eapply IH. exact E.
  - injection E as -> ->. apply Subseq_skip. exact H.
Qed.

Lemma Subseq_cons_inv {A : Type} (a b : A) (l1 l2 : list A) :
  Subseq (a :: l1) (b :: l2) ->
  (a = b /\ Subseq l1 l2) \/ Subseq (a :: l1) l2.
Proof.
  intro H. inversion H; subst; [right; assumption | left; split; auto].
Qed.

Lemma matchedCount_le states : forall remaining,
  (matchedCount states remaining <= List.length remaining)%nat.
Proof.
  induction states as [|s rest IH]; intros [|d ds]; simpl; try lia.
  destruct (String.eqb s d).
  - specialize (IH ds). lia.
  - apply (IH (d :: ds)).
Qed.

(** The scan matches a prefix of what is required... *)
Lemma matchedCount_sound states : forall remaining,
  Subseq (firstn (matchedCount states remaining) remaining) states.
Proof.
  induction states as [|s rest IH]; intros [|d ds]; simpl; try apply Subseq_nil.
  destruct (String.eqb_spec s d) as [->|Hne].
  - simpl. apply Subseq_take, IH.
  - apply Subseq_skip, (IH (d :: ds)).
Qed.

(** ... and no longer prefix is a subsequence of the recorded list. *)
Lemma matchedCount_greatest states : forall remaining j,
  Subseq (firstn j remaining) states ->
  (j <= List.length remaining)%nat ->
  (j <= matchedCount states remaining)%nat.
Proof.
  induction states as [|s rest IH]; intros remaining j H Hj.
  - destruct j; [lia|]. destruct remaining; simpl in *; [lia|]. inversion H.
  - destruct remaining as [|d ds]; simpl in *; [lia|].
    destruct j as [|j]; [lia|]. simpl in H.
    destruct (String.eqb_spec s d) as [->|Hne].
    + apply le_n_S, IH; [|lia].
      apply Subseq_cons_inv in H as [[_ H]|H]; [exact H|].
      apply Subseq_tail in H. exact H.
    + apply Subseq_cons_inv in H as [[E _]|H]; [congruence|].
      apply (IH (d :: ds) (S j)); [exact H|simpl; lia].
Qed.

(** The index the loop ends with is the matched count of the
    specification. *)
Lemma scanDirections_IsMatchedCount required recorded :
  IsMatchedCount required recorded (scanDirections recorded required 0).
Proof.
  rewrite scanDirections_from_zero. repeat split.
  - apply matchedCount_le.
  - apply matchedCount_sound.
  - intros j Hj H. now apply matchedCount_greatest.
Qed.

(** The loop matches everything exactly when the required list is a
    subsequence of the recorded one. *)
Lemma scanDirections_complete_iff required recorded :
  Nat.eqb (scanDirections recorded required 0) (List.length required) = true
  <-> Subseq required recorded.
Proof.
  rewrite Nat.eqb_eq, scanDirections_from_zero. split; intro H.
  - pose proof (matchedCount_sound recorded required) as Hs.
    rewrite H, firstn_all in Hs. exact Hs.
  - apply Nat.le_antisymm; [apply matchedCount_le|].
    apply matchedCount_greatest; [|lia]. now rewrite firstn_all.
Qed.

Lemma tiltSequence_completed challenge st played required :
  directions challenge = Some required ->
  completedOf (tiltSequence challenge st played)
  = Nat.eqb (scanDirections (tiltStates st) required 0) (List.length required).
Proof.
  intro H. unfold tiltSequence, completedOf. rewrite H.
  destruct (Nat.eqb _ _); reflexivity.
Qed.

Lemma tiltSequence_progress challenge st played required r :
  directions challenge = Some required ->
  outcome (tiltSequence challenge st played) = Normal r ->
  completed r = false ->
  performance r
  = Math_min (num (List.length (tiltStates st)) / num (List.length required)) 1.
Proof.
  intros H. unfold tiltSequence. rewrite H.
  destruct (Nat.eqb _ _); simpl; intros E Hc; injection E as <-;
    [discriminate|reflexivity].
Qed.

Lemma tiltSequence_performance challenge st played r :
  outcome (tiltSequence challenge st played) = Normal r ->
  completed r = true -> performance r = 1.
Proof.
  unfold tiltSequence. destruct (directions challenge) as [required|].
  - destruct (Nat.eqb _ _); simpl; intros E Hc; injection E as <-;
      [reflexivity|discriminate].
  - simpl. intros E Hc; injection E as <-. discriminate.
Qed.

Lemma recorded_tiltStates gyro T st :
  tiltStates
    (if isNewTilt (detectTilt gyro T) (tiltStates st)
     then set_tiltStates (tiltStates st ++ [detectTilt gyro T]) st else st)
  = recordedTransitions gyro T (tiltStates st).
Proof.
  unfold recordedTransitions. destruct (isNewTilt _ _); reflexivity.
Qed.

Lemma holdCondition_sequence_mode challenge tiltDetected :
  truthy (duration challenge) = false ->
  holdCondition challenge tiltDetected = Normal false.
Proof. intro H. unfold holdCondition. rewrite H. reflexivity. Qed.

(** In every path of [verifyTiltChallenge] that reaches the sequence
    check, the list it scans is the recorded transition list. *)
Lemma tilt_tick_cases challenge gyro T now st :
  let t := verifyTiltChallenge challenge gyro T now st in
  let played := if isNewTilt (detectTilt gyro T) (tiltStates st)
                then [TILT_DETECTED] else [] in
  outcome t = TypeError
  \/ outcome t = Normal (mkResult true 1)
  \/ exists st', tiltStates st' = recordedTransitions gyro T (tiltStates st)
                 /\ t = tiltSequence challenge st' played.
Proof.
  cbv zeta. unfold verifyTiltChallenge.
  pose proof (recorded_tiltStates gyro T st) as Hrec.
  destruct (holdCondition challenge (detectTilt gyro T)) as [[|]|].
  - destruct (Z.eqb _ _).
    + right; right. eexists. split; [|reflexivity]. exact Hrec.
    + match goal with |- context [if ?c then _ else _] => destruct c end.
      * right; left. reflexivity.
      * right; right. eexists. split; [|reflexivity]. exact Hrec.
  - right; right. eexists. split; [|reflexivity]. exact Hrec.
  - left. reflexivity.
Qed.

(** C6. In sequence mode (no hold duration) the TILT detector ends
    normally and completes exactly when the required directions are a
    subsequence of the recorded transition list (in order, gaps allowed).
    With required directions left, forward, right, the ticks that record
    left, backward, forward, left, right complete on the fifth, whose
    recorded list is exactly that one. *)
Theorem tilt_sequence_completes_iff_subsequence :
  (forall challenge gyro T now st required,
      directions challenge = Some required ->
      truthy (duration challenge) = false ->
      let t := verifyTiltChallenge challenge gyro T now st in
      outcome t <> TypeError
      /\ (completedOf t = true
          <-> Subseq required (recordedTransitions gyro T (tiltStates st))))
  /\ (let challenge :=
        withType (Some CHALLENGE_TYPES.TILT)
          (Some (tiltTemplate "Tilt left, forward, right"
                   ["left"; "forward"; "right"] None "")) in
      let T := adjustedThresholds 1 in
      let ticks :=
        pollTilt challenge T
          [(100, tiltLeft); (200, tiltBackward); (300, tiltForward); (400, tiltLeft);
           (500, tiltRight)]%Z initialTracking in
      map completedOf ticks = [false; false; false; false; true]
      /\ (exists t4, nth_error ticks 3 = Some t4
                     /\ recordedTransitions tiltRight T (tiltStates (tracking t4))
                        = ["left"; "backward"; "forward"; "left"; "right"])
      /\ Subseq ["left"; "forward"; "right"]
           ["left"; "backward"; "forward"; "left"; "right"]).
Proof.
  split.
  - intros challenge gyro T now st required Hd Hdur. cbv zeta.
    unfold verifyTiltChallenge.
    rewrite (holdCondition_sequence_mode _ _ Hdur).
    rewrite <- scanDirections_complete_iff, <- recorded_tiltStates.
    rewrite (tiltSequence_completed _ _ _ _ Hd). cbn [tiltStates set_lastDirectionMatchTime].
    split; [|reflexivity].
    unfold tiltSequence. rewrite Hd.
    match goal with |- context [if ?c then _ else _] => destruct c end; discriminate.
  - cbv zeta. split; [vm_compute; reflexivity|]. split.
    + eexists. split; vm_compute; reflexivity.
    + apply Subseq_take, Subseq_skip, Subseq_take, Subseq_skip, Subseq_take, Subseq_nil.
Qed.

(** C3, as the code has it. In sequence mode (and whenever [directions]
    is set), the progress returned by a tick that does not complete is the
    number of recorded transitions over the number of required directions,
    capped at 1. *)
Theorem tilt_progress_counts_recorded challenge gyro T now st required r :
  directions challenge = Some required ->
  outcome (verifyTiltChallenge challenge gyro T now st) = Normal r ->
  completed r = false ->
  performance r
  = Math_min
      (num (List.length (recordedTransitions gyro T (tiltStates st)))
       / num (List.length required)) 1.
Proof.
  intros Hd Hout Hc.
  destruct (tilt_tick_cases challenge gyro T now st) as [H|[H|[st' [Hst' H]]]].
  - rewrite H in Hout. discriminate.
  - rewrite H in Hout. injection Hout as <-. discriminate.
  - rewrite H in Hout. rewrite <- Hst'.
    eapply tiltSequence_progress; eauto.
Qed.

Lemma tilt_completes_with_one challenge gyro T now st r :
  outcome (verifyTiltChallenge challenge gyro T now st) = Normal r ->
  completed r = true -> performance r = 1.
Proof.
  intros Hout Hc.
  destruct (tilt_tick_cases challenge gyro T now st) as [H|[H|[st' [Hst' H]]]].
  - rewrite H in Hout. discriminate.
  - rewrite H in Hout. injection Hout as <-. reflexivity.
  - rewrite H in Hout. eapply tiltSequence_performance; eauto.
Qed.

Lemma Math_min_one (q : Q) : 1 <= q -> Math_min 1 q = 1.
Proof.
  intro H. unfold Math_min, Qmin, GenericMinMax.gmin.
  destruct (Qcompare 1 q) eqn:E; try reflexivity.
  apply Qgt_alt in E. exfalso. apply (Qlt_not_le _ _ E H).
Qed.

Lemma num_ratio_ge_one (s g : nat) :
  g <> 0%nat -> (g <= s)%nat -> 1 <= num s / num g.
Proof.
  intros Hg Hle. unfold num. apply Qle_shift_div_l.
  - change 0 with (inject_Z 0). rewrite <- Zlt_Qlt. lia.
  - rewrite Qmult_1_l, <- Zle_Qle. lia.
Qed.

Section Properties.

Variable Math_sqrt : Q -> Q.
Variable Math_atan2 : Q -> Q -> Q.

Local Abbreviation verifyChallengeCompletion :=
  (verifyChallengeCompletion Math_sqrt Math_atan2).
Local Abbreviation verifyRunChallenge := (verifyRunChallenge Math_sqrt).
Local Abbreviation verifyDirectionChallenge := (verifyDirectionChallenge Math_atan2).
Local Abbreviation magnitudeOf := (magnitudeOf Math_sqrt).
Local Abbreviation normalizedHeadingOf := (normalizedHeadingOf Math_atan2).
Local Abbreviation checkCompletion := (checkCompletion Math_sqrt Math_atan2).

(** ** Dispatch *)

(** C8. For every tracking state, clock value and multiplier, a missing
    challenge or a missing sensor sample makes [verifyChallengeCompletion]
    return [{completed: false, performance: 0}]: the call ends normally,
    the tracking state is the one it was given and no sound is played. *)
Theorem verifyChallengeCompletion_missing_input :
  (forall sensorData m now st,
      verifyChallengeCompletion None sensorData m now st
      = mkTick (Normal (mkResult false 0)) st [])
  /\ (forall challenge m now st,
         verifyChallengeCompletion challenge None m now st
         = mkTick (Normal (mkResult false 0)) st []).
Proof.
  split.
  - intros sensorData m now st. reflexivity.
  - intros [challenge|] m now st; reflexivity.
Qed.

(** What the dispatch does with each of the four types. *)
Lemma dispatch_RUN challenge sensorData m now st :
  type challenge = Some CHALLENGE_TYPES.RUN ->
  verifyChallengeCompletion (Some challenge) (Some sensorData) (Some m) now st
  = verifyRunChallenge challenge (accelerometer sensorData) (adjustedThresholds m) st.
Proof.
  intro H. unfold verifyChallengeCompletion, typeIs. rewrite H. reflexivity.
Qed.

Lemma dispatch_ROTATE challenge sensorData m now st :
  type challenge = Some CHALLENGE_TYPES.ROTATE ->
  verifyChallengeCompletion (Some challenge) (Some sensorData) (Some m) now st
  = verifyRotateChallenge challenge (gyroscope sensorData) (adjustedThresholds m) st.
Proof.
  intro H. unfold verifyChallengeCompletion, typeIs. rewrite H. reflexivity.
Qed.

Lemma dispatch_TILT challenge sensorData m now st :
  type challenge = Some CHALLENGE_TYPES.TILT ->
  verifyChallengeCompletion (Some challenge) (Some sensorData) (Some m) now st
  = verifyTiltChallenge challenge (gyroscope sensorData) (adjustedThresholds m) now st.
Proof.
  intro H. unfold verifyChallengeCompletion, typeIs. rewrite H. reflexivity.
Qed.

Lemma dispatch_DIRECTION challenge sensorData m now st :
  type challenge = Some CHALLENGE_TYPES.DIRECTION ->
  verifyChallengeCompletion (Some challenge) (Some sensorData) (Some m) now st
  = verifyDirectionChallenge challenge (magnetometer sensorData)
      (adjustedThresholds m) now st.
Proof.
  intro H. unfold verifyChallengeCompletion, typeIs. rewrite H. reflexivity.
Qed.

(** C7. For every sensitivity multiplier [m > 0], the thresholds handed to
    the detectors are: step magnitude [1.2 / m], rotation speed [0.5 / m],
    tilt angle [0.5 / m] (each is the number whose product with [m] is the
    base value) and direction tolerance [20 * m]; and each of the four
    detectors is called with exactly these thresholds. *)
Theorem adjusted_thresholds_scale (m : Q) (Hm : 0 < m) :
  let adjusted := adjustedThresholds m in
  (STEP_MAGNITUDE adjusted == 1.2 / m /\ STEP_MAGNITUDE adjusted * m == 1.2)
  /\ (ROTATION_SPEED adjusted == 0.5 / m /\ ROTATION_SPEED adjusted * m == 0.5)
  /\ (TILT_ANGLE adjusted == 0.5 / m /\ TILT_ANGLE adjusted * m == 0.5)
  /\ DIRECTION_TOLERANCE adjusted == 20 * m
  /\ (forall challenge sensorData now st,
         type challenge = Some CHALLENGE_TYPES.RUN ->
         verifyChallengeCompletion (Some challenge) (Some sensorData) (Some m) now st
         = verifyRunChallenge challenge (accelerometer sensorData) adjusted st)
  /\ (forall challenge sensorData now st,
         type challenge = Some CHALLENGE_TYPES.ROTATE ->
         verifyChallengeCompletion (Some challenge) (Some sensorData) (Some m) now st
         = verifyRotateChallenge challenge (gyroscope sensorData) adjusted st)
  /\ (forall challenge sensorData now st,
         type challenge = Some CHALLENGE_TYPES.TILT ->
         verifyChallengeCompletion (Some challenge) (Some sensorData) (Some m) now st
         = verifyTiltChallenge challenge (gyroscope sensorData) adjusted now st)
  /\ (forall challenge sensorData now st,
         type challenge = Some CHALLENGE_TYPES.DIRECTION ->
         verifyChallengeCompletion (Some challenge) (Some sensorData) (Some m) now st
         = verifyDirectionChallenge challenge (magnetometer sensorData) adjusted now st).
Proof.
  assert (Hne : ~ m == 0) by (intro E; rewrite E in Hm; discriminate).
  cbv zeta. unfold adjustedThresholds, THRESHOLDS. simpl.
  repeat split; try reflexivity; try (field; exact Hne).
  - intros; now apply dispatch_RUN.
  - intros; now apply dispatch_ROTATE.
  - intros; now apply dispatch_TILT.
  - intros; now apply dispatch_DIRECTION.
Qed.

(** ** RUN detector *)

Local Abbreviation pollRun := (pollRun Math_sqrt).

(** How a tick of the RUN detector ends, in terms of the value
    [countedSteps] of the counter after its [stepCount++]. *)
Lemma run_tick_shape challenge accel T st :
  verifyRunChallenge challenge accel T st
  = let counted := countedSteps (STEP_MAGNITUDE T) (magnitudeOf accel) st in
    let st' :=
      set_stepCount counted (set_lastAccelMagnitude (magnitudeOf accel) st) in
    let played :=
      if risingEdge (STEP_MAGNITUDE T) (lastAccelMagnitude st) (magnitudeOf accel)
      then [STEP_DETECTED] else [] in
    if truthy (count challenge) && ge (num counted) (numberOf (count challenge))
    then
      returns true (Math_min 1 (num counted / numberOf (count challenge)))
        (set_stepCount 0 st') played
    else
      returns false
        (if truthy (count challenge)
         then num counted / numberOf (count challenge) else 0)
        st' played.
Proof.
  unfold verifyRunChallenge, countedSteps, risingEdge.
  rewrite (andb_comm (le _ _)).
  destruct (gt _ _ && le _ _); reflexivity.
Qed.

Lemma run_tick_last challenge accel T st :
  lastAccelMagnitude (tracking (verifyRunChallenge challenge accel T st))
  = magnitudeOf accel.
Proof.
  rewrite run_tick_shape. cbv zeta.
  match goal with |- context [if ?c then _ else _] => destruct c end; reflexivity.
Qed.

Lemma run_tick_steps challenge accel T st :
  stepsDetected (verifyRunChallenge challenge accel T st)
  = if risingEdge (STEP_MAGNITUDE T) (lastAccelMagnitude st) (magnitudeOf accel)
    then 1%nat else 0%nat.
Proof.
  rewrite run_tick_shape. cbv zeta. unfold stepsDetected.
  destruct (truthy _ && ge _ _); destruct (risingEdge _ _ _); reflexivity.
Qed.

Lemma countedSteps_edge T magnitude st :
  countedSteps T magnitude st
  = (stepCount st
     + if risingEdge T (lastAccelMagnitude st) magnitude then 1 else 0)%nat.
Proof. unfold countedSteps. destruct (risingEdge _ _ _); lia. Qed.

(** The verdict of a tick: it completes exactly when the goal is truthy
    and the counter, with the step of this tick, has reached it. *)
Lemma run_tick_completed challenge accel T st :
  completedOf (verifyRunChallenge challenge accel T st)
  = truthy (count challenge)
    && ge (num (countedSteps (STEP_MAGNITUDE T) (magnitudeOf accel) st))
         (numberOf (count challenge)).
Proof.
  rewrite run_tick_shape. cbv zeta. destruct (truthy _ && ge _ _); reflexivity.
Qed.

Lemma run_tick_counter challenge accel T st :
  completedOf (verifyRunChallenge challenge accel T st) = false ->
  stepCount (tracking (verifyRunChallenge challenge accel T st))
  = (stepCount st
     + if risingEdge (STEP_MAGNITUDE T) (lastAccelMagnitude st) (magnitudeOf accel)
       then 1 else 0)%nat.
Proof.
  rewrite <- countedSteps_edge, run_tick_shape. cbv zeta. unfold completedOf.
  destruct (truthy _ && ge _ _); [discriminate|reflexivity].
Qed.

Lemma run_tick_reset challenge accel T st :
  completedOf (verifyRunChallenge challenge accel T st) = true ->
  stepCount (tracking (verifyRunChallenge challenge accel T st)) = 0%nat
  /\ outcome (verifyRunChallenge challenge accel T st)
     = Normal
         (mkResult true
            (Math_min 1
               (num (countedSteps (STEP_MAGNITUDE T) (magnitudeOf accel) st)
                / numberOf (count challenge)))).
Proof.
  rewrite run_tick_shape. cbv zeta. unfold completedOf.
  destruct (truthy _ && ge _ _); [split; reflexivity|discriminate].
Qed.

Lemma pollRun_cons challenge T accel rest st :
  pollRun challenge T (accel :: rest) st
  = verifyRunChallenge challenge accel T st
    :: pollRun challenge T rest (tracking (verifyRunChallenge challenge accel T st)).
Proof. reflexivity. Qed.

Lemma totalSteps_cons t ticks :
  totalSteps (t :: ticks) = (stepsDetected t + totalSteps ticks)%nat.
Proof. reflexivity. Qed.

Lemma num_le (a b : nat) : (a <= b)%nat -> num a <= num b.
Proof. intro H. unfold num. rewrite <- Zle_Qle. lia. Qed.

Lemma countRisingEdges_sustained T mags :
  (forall m, In m mags -> T < m) ->
  forall previous,
    countRisingEdges T previous mags
    = match mags with
      | [] => 0%nat
      | _ :: _ => if le previous T then 1%nat else 0%nat
      end.
Proof.
  induction mags as [|m rest IH]; intros Hall previous; [reflexivity|].
  cbn [countRisingEdges]. rewrite IH by (intros; apply Hall; now right).
  assert (Hm : T < m) by (apply Hall; now left).
  unfold risingEdge. rewrite (proj2 (gt_true_iff m T) Hm), andb_true_r.
  destruct rest; [apply Nat.add_0_r|].
  rewrite (proj2 (le_false_iff m T) Hm). apply Nat.add_0_r.
Qed.

(** As long as the goal is out of reach of the steps of the stream, no
    tick completes and the counter after each tick is the running count
    of rising edges. *)
Lemma pollRun_below challenge T samples :
  forall st,
    truthy (count challenge) = false
    \/ num (stepCount st
            + countRisingEdges (STEP_MAGNITUDE T) (lastAccelMagnitude st)
                (map magnitudeOf samples))
       < numberOf (count challenge) ->
    Forall (fun t => completedOf t = false) (pollRun challenge T samples st)
    /\ map (fun t => stepCount (tracking t)) (pollRun challenge T samples st)
       = runningCounts (STEP_MAGNITUDE T) (lastAccelMagnitude st) (stepCount st)
           (map magnitudeOf samples)
    /\ stepCount (finalTracking (pollRun challenge T samples st) st)
       = (stepCount st
          + countRisingEdges (STEP_MAGNITUDE T) (lastAccelMagnitude st)
              (map magnitudeOf samples))%nat.
Proof.
  induction samples as [|a rest IH]; intros st Hgoal.
  - cbn. repeat split; [constructor|lia].
  - rewrite pollRun_cons. cbn [map countRisingEdges runningCounts] in *.
    assert (Hc : completedOf (verifyRunChallenge challenge a T st) = false).
    { rewrite run_tick_completed. destruct Hgoal as [Hf|Hlt]; [now rewrite Hf|].
      apply andb_false_iff. right. apply ge_false_iff.
      eapply Qle_lt_trans; [|exact Hlt]. apply num_le.
      rewrite countedSteps_edge. lia. }
    pose proof (run_tick_counter challenge a T st Hc) as Hsc.
    pose proof (run_tick_last challenge a T st) as Hlast.
    destruct (IH (tracking (verifyRunChallenge challenge a T st))) as [H1 [H2 H3]].
    { rewrite Hsc, Hlast. destruct Hgoal as [Hf|Hlt]; [left; exact Hf|right].
      rewrite <- Nat.add_assoc. exact Hlt. }
    split; [constructor; assumption|]. split.
    + rewrite H2, Hsc, Hlast. reflexivity.
    + cbn [finalTracking fold_left]. unfold finalTracking in H3.
      rewrite H3, Hsc, Hlast. lia.
Qed.

Lemma pollRun_sustained challenge T samples :
  (forall a, In a samples -> STEP_MAGNITUDE T < magnitudeOf a) ->
  forall st,
    totalSteps (pollRun challenge T samples st)
    = match samples with
      | [] => 0%nat
      | _ :: _ => if le (lastAccelMagnitude st) (STEP_MAGNITUDE T) then 1%nat else 0%nat
      end.
Proof.
  induction samples as [|a rest IH]; intros Hall st; [reflexivity|].
  assert (Ha : gt (magnitudeOf a) (STEP_MAGNITUDE T) = true)
    by (apply gt_true_iff, Hall; now left).
  rewrite pollRun_cons, totalSteps_cons.
  rewrite run_tick_steps, IH by (intros; apply Hall; now right).
  rewrite run_tick_last. unfold risingEdge. rewrite Ha, andb_true_r.
  destruct rest as [|b rest']; [ apply Nat.add_0_r |].
  assert (Hle : le (magnitudeOf a) (STEP_MAGNITUDE T) = false)
    by (apply le_false_iff, Hall; now left).
  rewrite Hle. apply Nat.add_0_r.
Qed.

(** C2. The RUN detector counts a step exactly on a rising-edge crossing
    (previous magnitude <= threshold and current magnitude > threshold):
    on a rising edge a tick increments the step counter by one and emits
    one step notification, otherwise it leaves the counter as it is and
    emits none; the tick completes exactly when the counter so incremented
    has reached a truthy goal, in which case the counter is reset to 0
    after the performance has been computed from it, and otherwise the
    incremented counter is what the tick stores.  From the reset state
    with threshold 1.2, samples of magnitudes 0, 1.5, 0.8, 1.6, 0.9 give
    exactly two steps, at the second and the fourth sample: the
    notifications are 0, 1, 0, 1, 0 for every challenge, and for a
    challenge whose goal two steps do not reach the counter reads
    0, 1, 1, 2, 2 after the five ticks.  A non-empty run of samples that
    are all above the threshold counts one step when it starts from a
    magnitude at or below the threshold, and none when it starts above:
    that many notifications for every challenge, and that much added to
    the counter for a challenge whose goal one more step does not
    reach. *)
Theorem run_counts_rising_edges :
  (forall challenge accel T st,
      let t := verifyRunChallenge challenge accel T st in
      let edge :=
        risingEdge (STEP_MAGNITUDE T) (lastAccelMagnitude st) (magnitudeOf accel) in
      let counted := (stepCount st + if edge then 1 else 0)%nat in
      stepsDetected t = (if edge then 1 else 0)%nat
      /\ (completedOf t = true
          <-> truthy (count challenge) = true
              /\ numberOf (count challenge) <= num counted)
      /\ (completedOf t = false -> stepCount (tracking t) = counted)
      /\ (completedOf t = true ->
          stepCount (tracking t) = 0%nat
          /\ outcome t
             = Normal
                 (mkResult true
                    (Math_min 1 (num counted / numberOf (count challenge))))))
  /\ (forall challenge T a1 a2 a3 a4 a5,
         STEP_MAGNITUDE T == 1.2 ->
         magnitudeOf a1 == 0 -> magnitudeOf a2 == 1.5 -> magnitudeOf a3 == 0.8 ->
         magnitudeOf a4 == 1.6 -> magnitudeOf a5 == 0.9 ->
         let ticks := pollRun challenge T [a1; a2; a3; a4; a5] initialTracking in
         map stepsDetected ticks = [0; 1; 0; 1; 0]%nat
         /\ totalSteps ticks = 2%nat
         /\ (truthy (count challenge) = false \/ 2 < numberOf (count challenge) ->
             map completedOf ticks = [false; false; false; false; false]
             /\ map (fun t => stepCount (tracking t)) ticks = [0; 1; 1; 2; 2]%nat))
  /\ (forall challenge T samples st,
         samples <> [] ->
         (forall a, In a samples -> STEP_MAGNITUDE T < magnitudeOf a) ->
         let ticks := pollRun challenge T samples st in
         let steps :=
           if le (lastAccelMagnitude st) (STEP_MAGNITUDE T) then 1%nat else 0%nat in
         totalSteps ticks = steps
         /\ (truthy (count challenge) = false
             \/ num (S (stepCount st)) < numberOf (count challenge) ->
             Forall (fun t => completedOf t = false) ticks
             /\ stepCount (finalTracking ticks st) = (stepCount st + steps)%nat)).
Proof.
  split; [|split].
  - intros challenge accel T st. cbv zeta.
    rewrite <- countedSteps_edge.
    split; [apply run_tick_steps|]. split; [|split].
    + rewrite run_tick_completed, andb_true_iff, ge_true_iff. reflexivity.
    + intro Hc. rewrite run_tick_counter by exact Hc. symmetry.
      apply countedSteps_edge.
    + apply run_tick_reset.
  - intros challenge T a1 a2 a3 a4 a5 HT H1 H2 H3 H4 H5. cbv zeta.
    assert (Hedges : runningCounts (STEP_MAGNITUDE T) 0 0
                       (map magnitudeOf [a1; a2; a3; a4; a5])
                     = [0; 1; 1; 2; 2]%nat
                     /\ countRisingEdges (STEP_MAGNITUDE T) 0
                          (map magnitudeOf [a1; a2; a3; a4; a5]) = 2%nat).
    { cbn [map runningCounts countRisingEdges]. unfold risingEdge.
      rewrite HT, H1, H2, H3, H4, H5. split; reflexivity. }
    destruct Hedges as [Hrun Hcount].
    split; [|split].
    + rewrite !pollRun_cons. cbn [map].
      rewrite !run_tick_steps, !run_tick_last. unfold risingEdge.
      cbn [lastAccelMagnitude initialTracking].
      rewrite HT, H1, H2, H3, H4, H5. reflexivity.
    + unfold totalSteps. rewrite !pollRun_cons. cbn [map].
      rewrite !run_tick_steps, !run_tick_last. unfold risingEdge.
      cbn [lastAccelMagnitude initialTracking].
      rewrite HT, H1, H2, H3, H4, H5. reflexivity.
    + intro Hgoal.
      destruct (pollRun_below challenge T [a1; a2; a3; a4; a5] initialTracking)
        as [Hall [Hcounts _]].
      { cbn [lastAccelMagnitude stepCount initialTracking].
        destruct Hgoal as [Hf|Hlt]; [left; exact Hf|right].
        rewrite Hcount. exact Hlt. }
      split.
      * clear - Hall. rewrite !pollRun_cons in *.
        repeat match goal with
               | H : Forall _ (_ :: _) |- _ => inversion_clear H
               end.
        cbn [map]. repeat (f_equal; try assumption).
      * rewrite Hcounts. exact Hrun.
  - intros challenge T samples st Hne Hall. cbv zeta. split.
    + rewrite pollRun_sustained by exact Hall.
      destruct samples; [contradiction|reflexivity].
    + intro Hgoal.
      assert (Hcount : countRisingEdges (STEP_MAGNITUDE T) (lastAccelMagnitude st)
                         (map magnitudeOf samples)
                       = if le (lastAccelMagnitude st) (STEP_MAGNITUDE T)
                         then 1%nat else 0%nat).
      { rewrite countRisingEdges_sustained.
        - destruct samples; [contradiction|reflexivity].
        - intros m Hm. apply in_map_iff in Hm as [a [<- Ha]]. apply Hall, Ha. }
      destruct (pollRun_below challenge T samples st) as [Hnone [_ Hfinal]].
      { destruct Hgoal as [Hf|Hlt]; [left; exact Hf|right].
        eapply Qle_lt_trans; [|exact Hlt]. apply num_le. rewrite Hcount.
        destruct (le _ _); lia. }
      split; [exact Hnone|]. rewrite Hfinal, Hcount. reflexivity.
Qed.

(** ** DIRECTION detector *)

Local Abbreviation diffOf := (diffOf Math_atan2).
Local Abbreviation isMatchedOf := (isMatchedOf Math_atan2).
Local Abbreviation pollDirection := (pollDirection Math_atan2).

Lemma headingDiff_compat (a a' b b' : Q) :
  a == a' -> b == b' -> headingDiff a b == headingDiff a' b'.
Proof.
  intros Ha Hb. unfold headingDiff, Math_abs.
  assert (E : Qabs (a - b) == Qabs (a' - b')) by (now rewrite Ha, Hb).
  rewrite (gt_compat _ _ E 180 180 (Qeq_refl _)).
  destruct (gt _ _); rewrite E; reflexivity.
Qed.

(** The four ways a tick of the DIRECTION detector goes. *)
Lemma direction_first_match challenge magnet T now st :
  isMatchedOf challenge magnet T = true ->
  directionMatched st = false ->
  verifyDirectionChallenge challenge magnet T now st
  = returns false (Math_max 0 (1 - diffOf challenge magnet / 180))
      (set_lastDirectionMatchTime now (set_directionMatched true st))
      [DIRECTION_MATCHED].
Proof.
  intros Hm Hd. unfold verifyDirectionChallenge. rewrite Hm, Hd. reflexivity.
Qed.

Lemma direction_holding challenge magnet T now st :
  isMatchedOf challenge magnet T = true ->
  directionMatched st = true ->
  (now - lastDirectionMatchTime st < 2000)%Z ->
  verifyDirectionChallenge challenge magnet T now st
  = returns false (Math_max 0 (1 - diffOf challenge magnet / 180)) st [].
Proof.
  intros Hm Hd Ht. unfold verifyDirectionChallenge. rewrite Hm, Hd. cbn [negb].
  destruct (ge _ 2) eqn:E; [|reflexivity].
  apply hold_two_seconds in E. lia.
Qed.

Lemma direction_completes challenge magnet T now st :
  isMatchedOf challenge magnet T = true ->
  directionMatched st = true ->
  (2000 <= now - lastDirectionMatchTime st)%Z ->
  verifyDirectionChallenge challenge magnet T now st
  = returns true (1 - diffOf challenge magnet / toleranceOf challenge T)
      (set_lastDirectionMatchTime 0%Z (set_directionMatched false st)) [].
Proof.
  intros Hm Hd Ht. unfold verifyDirectionChallenge. rewrite Hm, Hd. cbn [negb].
  apply hold_two_seconds in Ht. rewrite Ht. reflexivity.
Qed.

Lemma direction_lost challenge magnet T now st :
  isMatchedOf challenge magnet T = false ->
  verifyDirectionChallenge challenge magnet T now st
  = returns false (Math_max 0 (1 - diffOf challenge magnet / 180))
      (set_lastDirectionMatchTime 0%Z (set_directionMatched false st)) [].
Proof.
  intros Hm. unfold verifyDirectionChallenge. rewrite Hm. reflexivity.
Qed.

Lemma pollDirection_cons challenge T now magnet rest st :
  pollDirection challenge T ((now, magnet) :: rest) st
  = verifyDirectionChallenge challenge magnet T now st
    :: pollDirection challenge T rest
         (tracking (verifyDirectionChallenge challenge magnet T now st)).
Proof. reflexivity. Qed.

(** While the match holds and less than two seconds have passed since it
    started, the ticks neither complete nor touch the tracking state;
    the first tick at or after two seconds completes. *)
Lemma pollDirection_hold challenge magnet T t1 ts :
  isMatchedOf challenge magnet T = true ->
  forall st,
    directionMatched st = true ->
    (forall t, In t ts -> (t - lastDirectionMatchTime st < 2000)%Z) ->
    (2000 <= t1 - lastDirectionMatchTime st)%Z ->
    pollDirection challenge T (map (fun t => (t, magnet)) (ts ++ [t1])) st
    = (repeat (returns false (Math_max 0 (1 - diffOf challenge magnet / 180)) st [])
         (List.length ts)
       ++ [returns true (1 - diffOf challenge magnet / toleranceOf challenge T)
             (set_lastDirectionMatchTime 0%Z (set_directionMatched false st)) []])%list.
Proof.
  intros Hm st Hd. induction ts as [|t ts IH]; intros Hts Ht1.
  - cbn [app map List.length repeat]. rewrite pollDirection_cons.
    rewrite direction_completes by assumption. reflexivity.
  - cbn [app map List.length repeat]. rewrite pollDirection_cons.
    rewrite direction_holding by (try assumption; apply Hts; now left).
    cbn [tracking returns]. rewrite IH; [reflexivity| |assumption].
    intros t' Ht'. apply Hts. now right.
Qed.

Lemma faceNorth_heading_10 magnet T :
  normalizedHeadingOf magnet == 10 ->
  diffOf faceNorth magnet == 10 /\ isMatchedOf faceNorth magnet T = true.
Proof.
  intro H.
  assert (E : diffOf faceNorth magnet == 10).
  { unfold diffOf. cbn [faceNorth withType nth_error CHALLENGES_DIRECTION
                         directionTemplate direction getHeadingFromDirection].
    change (getHeadingFromDirection (DirLabel "N")) with 0.
    rewrite (headingDiff_compat _ 10 0 0 H (Qeq_refl _)). reflexivity. }
  split; [exact E|].
  unfold isMatchedOf. rewrite E. reflexivity.
Qed.

(** C5. For the challenge "Face North" (target 0 degrees, tolerance 20), a
    sample of normalized heading 10 degrees is matched (difference 10).
    From a state with no match, the first such tick starts the hold timer
    and asks for the matched sound; the ticks that follow within two
    seconds neither complete nor change the state; the first tick at two
    seconds or more completes with performance 1 - 10/20 = 0.5.  For any
    challenge, a tick on which the match is lost does not complete and
    leaves the hold flag off and the timer at 0 (unset), so that the next
    matched tick only starts a new hold. *)
Theorem direction_hold_two_seconds :
  (forall magnet T,
      normalizedHeadingOf magnet == 10 ->
      isMatchedOf faceNorth magnet T = true
      /\ diffOf faceNorth magnet == 10
      /\ forall t0 ts t1 st,
          directionMatched st = false ->
          (forall t, In t ts -> (t - t0 < 2000)%Z) ->
          (2000 <= t1 - t0)%Z ->
          let ticks :=
            pollDirection faceNorth T
              (map (fun t => (t, magnet)) (t0 :: ts ++ [t1])) st in
          map completedOf ticks = (repeat false (S (List.length ts)) ++ [true])%list
          /\ map sounds ticks
             = [DIRECTION_MATCHED] :: repeat [] (S (List.length ts))
          /\ exists r,
              outcome (last ticks (returns false 0 st [])) = Normal r
              /\ completed r = true
              /\ performance r == 1 - 10 / 20
              /\ performance r == 0.5)
  /\ (forall challenge magnet T now st,
         isMatchedOf challenge magnet T = false ->
         let t := verifyDirectionChallenge challenge magnet T now st in
         completedOf t = false
         /\ directionMatched (tracking t) = false
         /\ lastDirectionMatchTime (tracking t) = 0%Z
         /\ forall magnet' now',
             isMatchedOf challenge magnet' T = true ->
             let t' :=
               verifyDirectionChallenge challenge magnet' T now' (tracking t) in
             completedOf t' = false
             /\ lastDirectionMatchTime (tracking t') = now').
Proof.
  split.
  - intros magnet T H. destruct (faceNorth_heading_10 magnet T H) as [Hdiff Hm].
    split; [exact Hm|]. split; [exact Hdiff|].
    intros t0 ts t1 st Hd Hts Ht1. cbv zeta.
    cbn [map]. rewrite pollDirection_cons.
    rewrite direction_first_match by assumption. cbn [tracking returns].
    rewrite pollDirection_hold; try assumption; try reflexivity.
    cbn [map completedOf outcome completed sounds].
    rewrite !map_app, !map_repeat. cbn [map completedOf outcome completed sounds returns].
    split; [reflexivity|]. split.
    + f_equal. rewrite <- repeat_cons. reflexivity.
    + rewrite app_comm_cons, last_last. eexists. split; [reflexivity|].
      cbn [completed performance]. split; [reflexivity|].
      assert (Ht : toleranceOf faceNorth T == 20) by reflexivity.
      split; rewrite Hdiff, Ht; reflexivity.
  - intros challenge magnet T now st Hm. cbv zeta.
    rewrite (direction_lost _ _ _ _ _ Hm). cbn [tracking returns completedOf outcome completed].
    repeat split.
    + rewrite direction_first_match by (try assumption; reflexivity). reflexivity.
    + rewrite direction_first_match by (try assumption; reflexivity). reflexivity.
Qed.

End Properties.

(** ** Challenge generation *)

Lemma Math_floor_random (r : Q) (n : nat) :
  0 <= r -> r < 1 -> (0 < n)%nat ->
  (0 <= Math_floor (r * num n) < Z.of_nat n)%Z.
Proof.
  intros H0 H1 Hn. unfold Math_floor, num.
  assert (Hpos : 0 < inject_Z (Z.of_nat n))
    by (change 0 with (inject_Z 0); rewrite <- Zlt_Qlt; lia).
  split.
  - change 0%Z with (Qfloor 0). apply Qfloor_resp_le.
    apply Qmult_le_0_compat; [exact H0|]. apply Qlt_le_weak, Hpos.
  - rewrite Zlt_Qlt.
    apply Qle_lt_trans with (r * inject_Z (Z.of_nat n)); [apply Qfloor_le|].
    rewrite <- (Qmult_1_l (inject_Z (Z.of_nat n))) at 2.
    apply Qmult_lt_compat_r; assumption.
Qed.

Lemma index_in_range {A : Type} (l : list A) (i : Z) :
  (0 <= i < Z.of_nat (List.length l))%Z -> exists a, index l i = Some a.
Proof.
  intros [H0 H1]. unfold index.
  destruct (Z.ltb_spec i 0) as [Hneg|_]; [lia|].
  destruct (nth_error l (Z.to_nat i)) as [a|] eqn:E; [now exists a|].
  apply nth_error_None in E. lia.
Qed.

Lemma index_In {A : Type} (l : list A) (i : Z) (a : A) :
  index l i = Some a -> In a l.
Proof.
  unfold index. destruct (i <? 0)%Z; [discriminate|]. apply nth_error_In.
Qed.

Lemma CHALLENGES_defined (sensors : SensorStatus) (t : string) :
  In t (availableChallengeTypes sensors) -> CHALLENGES (Some t) <> None.
Proof.
  unfold availableChallengeTypes.
  destruct (has_accelerometer sensors), (has_gyroscope sensors),
    (has_magnetometer sensors); simpl; intuition (subst; discriminate).
Qed.

Lemma type_withType (t : option string) (c : option Challenge) :
  type (withType t c) = t.
Proof. destruct c; reflexivity. Qed.

(** The type of a generated challenge is BASIC when no sensor is
    available and one of the eligible types otherwise. *)
Lemma generateChallenge_type sensors random1 random2 c :
  generateChallenge sensors random1 random2 = Normal c ->
  (availableChallengeTypes sensors = [] /\ c = basicChallenge)
  \/ exists t, type c = Some t /\ In t (availableChallengeTypes sensors).
Proof.
  unfold generateChallenge.
  destruct (availableChallengeTypes sensors) as [|t0 types] eqn:E.
  - simpl. intro H. injection H as <-. left. split; reflexivity.
  - cbn [List.length Nat.eqb].
    destruct (index (t0 :: types) _) as [t|] eqn:Ei; [|discriminate].
    destruct (CHALLENGES (Some t)) as [forType|]; [|discriminate].
    intro H. injection H as <-. right. exists t. split.
    + apply type_withType.
    + eapply index_In. exact Ei.
Qed.

(** With draws in [0, 1) the generator never raises. *)
Lemma generateChallenge_returns sensors random1 random2 :
  0 <= random1 -> random1 < 1 ->
  exists c, generateChallenge sensors random1 random2 = Normal c.
Proof.
  intros H0 H1. unfold generateChallenge.
  destruct (Nat.eqb (List.length (availableChallengeTypes sensors)) 0) eqn:E;
    [eexists; reflexivity|].
  apply Nat.eqb_neq in E.
  destruct (index_in_range (availableChallengeTypes sensors)
              (Math_floor (random1 * num (List.length (availableChallengeTypes sensors)))))
    as [t Ht]; [apply Math_floor_random; try assumption; lia|].
  rewrite Ht.
  destruct (CHALLENGES (Some t)) as [forType|] eqn:Ec; [eexists; reflexivity|].
  exfalso. apply (CHALLENGES_defined sensors t); [|exact Ec].
  eapply index_In. exact Ht.
Qed.

(** C9. With only the accelerometer available, whatever the two random
    draws in [0, 1), [generateChallenge] returns a challenge of type RUN.
    For any availability and any draws, a RUN challenge is returned only
    with the accelerometer, a ROTATE or TILT challenge only with the
    gyroscope, a DIRECTION challenge only with the magnetometer.  With no
    sensor available the result is the fixed "Shake your device" template
    of type BASIC. *)
Theorem generateChallenge_eligible_types :
  (forall random1 random2,
      0 <= random1 -> random1 < 1 ->
      exists c,
        generateChallenge (mkSensorStatus true false false) random1 random2 = Normal c
        /\ type c = Some CHALLENGE_TYPES.RUN)
  /\ (forall sensors random1 random2 c,
         generateChallenge sensors random1 random2 = Normal c ->
         (type c = Some CHALLENGE_TYPES.RUN -> has_accelerometer sensors = true)
         /\ (type c = Some CHALLENGE_TYPES.ROTATE -> has_gyroscope sensors = true)
         /\ (type c = Some CHALLENGE_TYPES.TILT -> has_gyroscope sensors = true)
         /\ (type c = Some CHALLENGE_TYPES.DIRECTION -> has_magnetometer sensors = true))
  /\ (forall random1 random2,
         generateChallenge (mkSensorStatus false false false) random1 random2
         = Normal basicChallenge)
  /\ type basicChallenge = Some "BASIC"
  /\ instruction basicChallenge = Some "Shake your device".
Proof.
  split; [|split; [|split; [|split]]]; try reflexivity.
  - intros random1 random2 H0 H1.
    destruct (generateChallenge_returns (mkSensorStatus true false false)
                random1 random2 H0 H1) as [c Hc].
    exists c. split; [exact Hc|].
    destruct (generateChallenge_type _ _ _ _ Hc) as [[E _]|[t [Ht Hin]]];
      [discriminate|].
    simpl in Hin. destruct Hin as [<-|[]]. exact Ht.
  - intros sensors random1 random2 c Hc.
    destruct (generateChallenge_type _ _ _ _ Hc) as [[E ->]|[t [Ht Hin]]].
    + repeat split; discriminate.
    + rewrite Ht. unfold availableChallengeTypes in Hin.
      destruct (has_accelerometer sensors), (has_gyroscope sensors),
        (has_magnetometer sensors); simpl in Hin;
        repeat split; intro E; injection E as ->; try reflexivity;
        exfalso; intuition discriminate.
Qed.

(** ** The detectors on concrete inputs *)

(** C1, on the code. The challenge is "Rotate device 360° clockwise"
    (direction 1) and the gyroscope reads z = -1 rad/s, a
    counter-clockwise rotation.  The selected axis value is -1, which does
    not exceed the threshold 0.5, and yet the tick adds
    [1 * (180/pi) / 10] degrees to the total: the test of the detector is
    on the absolute value of the selected axis value. *)
Theorem rotate_counts_rotation_against_direction :
  let gyro := mkVec3 0 0 (-1) in
  let T := adjustedThresholds 1 in
  let t := verifyRotateChallenge rotateClockwise gyro T initialTracking in
  direction rotateClockwise = DirNumber 1
  /\ rotationAxisOf rotateClockwise gyro == -1
  /\ gt (rotationAxisOf rotateClockwise gyro) (ROTATION_SPEED T) = false
  /\ completedOf t = false
  /\ rotationProgress (tracking t) == 1 * (180 / Math_PI) / 10
  /\ ~ rotationProgress (tracking t) == rotationProgress initialTracking.
Proof.
  cbv zeta. repeat split; try reflexivity. vm_compute. discriminate.
Qed.

(** The part of C1 that holds for every sample: a sample that the
    detector counts adds exactly [|axis value| * (180/pi) / 10] degrees,
    and the detector counts it exactly when [|axis value|] exceeds the
    threshold. *)
Lemma rotate_contribution challenge gyro T st :
  let axis := rotationAxisOf challenge gyro in
  (ROTATION_SPEED T < Math_abs axis ->
   rotationAfter challenge gyro T st
   = rotationProgress st + Math_abs axis * (180 / Math_PI) / 10)
  /\ (Math_abs axis <= ROTATION_SPEED T ->
      rotationAfter challenge gyro T st = rotationProgress st).
Proof.
  cbv zeta. unfold rotationAfter. split; intro H.
  - apply gt_true_iff in H. rewrite H. reflexivity.
  - apply gt_false_iff in H. rewrite H. reflexivity.
Qed.

(** C3 as the specification states it, refuted. Required directions left,
    right; the device is
    tilted forward, then backward.  Nothing required is matched (the
    matched count is 0), the second tick does not complete, and its
    progress is 1, not 0/2. *)
Lemma tilt_progress_is_not_matched_ratio :
  let T := adjustedThresholds 1 in
  let ticks :=
    pollTilt tiltLeftRight T [(100, tiltForward); (200, tiltBackward)]%Z
      initialTracking in
  exists t r,
    nth_error ticks 1 = Some t
    /\ outcome t = Normal r
    /\ completed r = false
    /\ directions tiltLeftRight = Some ["left"; "right"]
    /\ tiltStates (tracking t) = ["forward"; "backward"]
    /\ IsMatchedCount ["left"; "right"] ["forward"; "backward"] 0
    /\ performance r == 1
    /\ ~ performance r == num 0 / num 2.
Proof.
  cbv zeta. eexists. eexists. split; [vm_compute; reflexivity|].
  split; [reflexivity|]. repeat split; try (vm_compute; reflexivity).
  - apply Nat.le_0_l.
  - apply Subseq_nil.
  - intros j Hj H.
    apply (proj2 (proj2 (scanDirections_IsMatchedCount
                           ["left"; "right"] ["forward"; "backward"])) j Hj H).
  - vm_compute. discriminate.
Qed.

(** C4, on the code. The callback of [ChallengeScreen] never reads the
    storage: whatever difficulty is persisted, the multiplier is the
    default 1.  With "hard" persisted (sensitivity 1.3), a clockwise
    challenge and a gyroscope reading of z = 0.45, the tick leaves the
    rotation total at 0 (threshold 0.5), where the persisted sensitivity
    would have lowered the threshold to 0.5/1.3 and counted the sample. *)
Theorem checkCompletion_ignores_persisted_sensitivity
  (Math_sqrt : Q -> Q) (Math_atan2 : Q -> Q -> Q) :
  let storage := changeDifficulty "hard" None in
  let persisted := sensitivity (getDifficultySettings storage) in
  let sensorState := mkSensorData atRest (mkVec3 0 0 0.45) atRest in
  let t :=
    checkCompletion Math_sqrt Math_atan2 storage rotateClockwise sensorState 0
      initialTracking in
  let expected :=
    verifyChallengeCompletion Math_sqrt Math_atan2 (Some rotateClockwise)
      (Some sensorState) (Some persisted) 0 initialTracking in
  persisted == 1.3
  /\ (forall storage' challenge sensorData now st,
         checkCompletion Math_sqrt Math_atan2 storage' challenge sensorData now st
         = verifyChallengeCompletion Math_sqrt Math_atan2 (Some challenge)
             (Some sensorData) (Some 1) now st)
  /\ rotationProgress (tracking t) == 0
  /\ rotationProgress (tracking expected) == 0.45 * (180 / Math_PI) / 10
  /\ ~ rotationProgress (tracking expected) == rotationProgress (tracking t).
Proof.
  cbv zeta. repeat split; try reflexivity. vm_compute. discriminate.
Qed.

(** ** The theorems applied to concrete inputs *)

(** C7 at the sensitivity 1.3 of the "hard" difficulty. *)
Lemma adjusted_thresholds_scale_witness :
  0 < 1.3
  /\ STEP_MAGNITUDE (adjustedThresholds 1.3) * 1.3 == 1.2
  /\ ROTATION_SPEED (adjustedThresholds 1.3) * 1.3 == 0.5
  /\ TILT_ANGLE (adjustedThresholds 1.3) * 1.3 == 0.5
  /\ DIRECTION_TOLERANCE (adjustedThresholds 1.3) == 20 * 1.3.
Proof.
  assert (Hm : 0 < 1.3) by reflexivity.
  pose proof (adjusted_thresholds_scale sqrtQ atan2Degrees 1.3 Hm) as H.
  cbv zeta in H.
  destruct H as [[_ H1] [[_ H2] [[_ H3] [H4 _]]]].
  repeat split; assumption.
Defined.

(** C2 on the first catalogue template (three steps): samples along the z
    axis of magnitudes 0, 1.5, 0.8, 1.6, 0.9, and a run of three samples
    above the threshold. *)
Lemma run_counts_rising_edges_witness :
  let T := adjustedThresholds 1 in
  let along (m : Q) := mkVec3 0 0 m in
  (let ticks :=
     pollRun sqrtQ runInPlace T
       [along 0; along 1.5; along 0.8; along 1.6; along 0.9] initialTracking in
   map stepsDetected ticks = [0; 1; 0; 1; 0]%nat
   /\ totalSteps ticks = 2%nat
   /\ map completedOf ticks = [false; false; false; false; false]
   /\ map (fun t => stepCount (tracking t)) ticks = [0; 1; 1; 2; 2]%nat)
  /\ (let ticks :=
        pollRun sqrtQ runInPlace T [along 1.5; along 1.6; along 2] initialTracking in
      totalSteps ticks = 1%nat
      /\ stepCount (finalTracking ticks initialTracking) = 1%nat).
Proof.
  cbv zeta. split.
  - destruct (proj1 (proj2 (run_counts_rising_edges sqrtQ)) runInPlace
                (adjustedThresholds 1) (mkVec3 0 0 0) (mkVec3 0 0 1.5)
                (mkVec3 0 0 0.8) (mkVec3 0 0 1.6) (mkVec3 0 0 0.9))
      as [H1 [H2 H3]]; try reflexivity.
    destruct H3 as [H3 H4]; [right; reflexivity|].
    repeat split; assumption.
  - destruct (proj2 (proj2 (run_counts_rising_edges sqrtQ)) runInPlace
                (adjustedThresholds 1)
                [mkVec3 0 0 1.5; mkVec3 0 0 1.6; mkVec3 0 0 2] initialTracking)
      as [H1 H2].
    + discriminate.
    + intros a [<-|[<-|[<-|[]]]]; reflexivity.
    + destruct H2 as [_ H2]; [right; reflexivity|].
      split; [exact H1|exact H2].
Defined.

(** C3 as amended, on the second tick of the counterexample: two recorded
    transitions over two required directions. *)
Lemma tilt_progress_counts_recorded_witness :
  let T := adjustedThresholds 1 in
  let st := set_tiltStates ["forward"] initialTracking in
  exists r,
    outcome (verifyTiltChallenge tiltLeftRight tiltBackward T 200 st) = Normal r
    /\ completed r = false
    /\ performance r = Math_min (num 2 / num 2) 1.
Proof.
  cbv zeta. eexists. split; [reflexivity|]. split; [reflexivity|].
  apply (tilt_progress_counts_recorded tiltLeftRight tiltBackward
           (adjustedThresholds 1) 200
           (set_tiltStates ["forward"] initialTracking) ["left"; "right"]);
    reflexivity.
Defined.

(** C6 on a state that has recorded left, backward, forward, left, at the
    tick that records right. *)
Lemma tilt_sequence_completes_iff_subsequence_witness :
  let challenge :=
    withType (Some CHALLENGE_TYPES.TILT)
      (Some (tiltTemplate "Tilt left, forward, right"
               ["left"; "forward"; "right"] None "")) in
  let st :=
    set_tiltStates ["left"; "backward"; "forward"; "left"] initialTracking in
  completedOf (verifyTiltChallenge challenge tiltRight (adjustedThresholds 1) 500 st)
  = true.
Proof.
  cbv zeta.
  apply (proj1 tilt_sequence_completes_iff_subsequence
           _ tiltRight (adjustedThresholds 1) 500%Z
           (set_tiltStates ["left"; "backward"; "forward"; "left"] initialTracking)
           ["left"; "forward"; "right"]).
  - reflexivity.
  - reflexivity.
  - apply Subseq_take, Subseq_skip, Subseq_take, Subseq_skip, Subseq_take, Subseq_nil.
Defined.

(** C5 on a magnetometer sample read as heading 10 degrees: a first match
    at 1000 ms, ticks at 1100 and 2900 ms, completion at 3000 ms; and on a
    sample at 90 degrees, which loses the match. *)
Lemma direction_hold_two_seconds_witness :
  let T := adjustedThresholds 1 in
  let north10 := mkVec3 0 10 0 in
  let east := mkVec3 0 90 0 in
  (let ticks :=
     pollDirection atan2Degrees faceNorth T
       [(1000, north10); (1100, north10); (2900, north10); (3000, north10)]%Z
       initialTracking in
   map completedOf ticks = [false; false; false; true]
   /\ exists r,
       outcome (last ticks (returns false 0 initialTracking [])) = Normal r
       /\ performance r == 0.5)
  /\ (let st :=
        set_lastDirectionMatchTime 1000%Z (set_directionMatched true initialTracking) in
      let t := verifyDirectionChallenge atan2Degrees faceNorth east T 2000 st in
      directionMatched (tracking t) = false
      /\ lastDirectionMatchTime (tracking t) = 0%Z).
Proof.
  cbv zeta. split.
  - assert (H10 : normalizedHeadingOf atan2Degrees (mkVec3 0 10 0) == 10)
      by reflexivity.
    destruct (proj1 (direction_hold_two_seconds atan2Degrees)
                (mkVec3 0 10 0) (adjustedThresholds 1) H10) as [_ [_ H]].
    specialize (H 1000%Z [1100; 2900]%Z 3000%Z initialTracking).
    cbv zeta in H.
    destruct H as [Hc [_ [r [Hr [_ [_ Hp]]]]]].
    + reflexivity.
    + intros t [<-|[<-|[]]]; reflexivity.
    + discriminate.
    + split; [exact Hc|]. exists r. split; assumption.
  - assert (Hlost : isMatchedOf atan2Degrees faceNorth (mkVec3 0 90 0)
                      (adjustedThresholds 1) = false) by reflexivity.
    destruct (proj2 (direction_hold_two_seconds atan2Degrees)
                faceNorth (mkVec3 0 90 0) (adjustedThresholds 1) 2000%Z
                (set_lastDirectionMatchTime 1000%Z
                   (set_directionMatched true initialTracking)) Hlost)
      as [_ [Hd [Ht _]]].
    split; assumption.
Defined.

(** C9 on two draws. *)
Lemma generateChallenge_eligible_types_witness :
  exists c,
    generateChallenge (mkSensorStatus true false false) 0.6 0.3 = Normal c
    /\ type c = Some CHALLENGE_TYPES.RUN.
Proof.
  apply (proj1 generateChallenge_eligible_types 0.6 0.3); [discriminate|reflexivity].
Defined.

(** * Further properties of the engine *)

Lemma num_ratio_unit (s g : nat) :
  (s < g)%nat -> 0 <= num s / num g /\ num s / num g < 1.
Proof.
  intro H. unfold num.
  assert (Hg : 0 < inject_Z (Z.of_nat g))
    by (change 0 with (inject_Z 0); rewrite <- Zlt_Qlt; lia).
  split.
  - apply Qle_shift_div_l; [exact Hg|]. rewrite Qmult_0_l.
    change 0 with (inject_Z 0). rewrite <- Zle_Qle. lia.
  - apply Qlt_shift_div_r; [exact Hg|]. rewrite Qmult_1_l, <- Zlt_Qlt. lia.
Qed.

Section RunProperties.

Variable Math_sqrt : Q -> Q.

Local Abbreviation verifyRun := (verifyRunChallenge Math_sqrt).
Local Abbreviation magnitude := (magnitudeOf Math_sqrt).
Local Abbreviation poll := (pollRun Math_sqrt).

(** X1. Over any stream of accelerometer samples and from any tracking
    state, the number of step notifications of the RUN detector is the
    number of rising-edge crossings of the threshold along the magnitudes
    of the samples, whatever the challenge and whether or not ticks
    complete it in between. *)
Theorem run_steps_are_rising_edges challenge T samples :
  forall st,
    totalSteps (poll challenge T samples st)
    = countRisingEdges (STEP_MAGNITUDE T) (lastAccelMagnitude st)
        (map magnitude samples).
Proof.
  induction samples as [|a rest IH]; intro st; [reflexivity|].
  rewrite (pollRun_cons Math_sqrt), totalSteps_cons.
  rewrite (run_tick_steps Math_sqrt), IH, (run_tick_last Math_sqrt). reflexivity.
Qed.

(** X2. With a goal [goal] (any number) and a counter below the goal
    (as after a reset with a positive goal), a tick of the RUN detector
    keeps the counter below the goal; it completes exactly when it counts
    the step that reaches the goal, and then resets the counter to 0; the
    performance it returns is between 0 and 1, and is counter/goal while
    the challenge is not complete.  For a goal of [n] steps, [n] a natural
    number, the counter stays below [n] and the tick completes exactly
    when it counts the [n]-th step. *)
Theorem run_counter_below_goal challenge accel T st goal :
  count challenge = Some goal ->
  num (stepCount st) < goal ->
  let t := verifyRun challenge accel T st in
  let edge :=
    risingEdge (STEP_MAGNITUDE T) (lastAccelMagnitude st) (magnitude accel) in
  num (stepCount (tracking t)) < goal
  /\ (completedOf t = true <-> edge = true /\ goal <= num (S (stepCount st)))
  /\ (completedOf t = true -> stepCount (tracking t) = 0%nat)
  /\ (exists r,
        outcome t = Normal r
        /\ 0 <= performance r /\ performance r <= 1
        /\ (completed r = false ->
            performance r = num (stepCount (tracking t)) / goal))
  /\ (forall n : nat,
        goal == num n ->
        (stepCount (tracking t) < n)%nat
        /\ (completedOf t = true <-> edge = true /\ S (stepCount st) = n)).
Proof.
  intros Hc Hlt. cbv zeta.
  assert (Hsc : 0 <= num (stepCount st))
    by (unfold num; change 0 with (inject_Z 0); rewrite <- Zle_Qle; lia).
  assert (Hg : 0 < goal) by lra.
  assert (Htruthy : truthy (count challenge) = true).
  { rewrite Hc. cbn [truthy]. destruct (Qeq_bool goal 0) eqn:E; [|reflexivity].
    apply Qeq_bool_iff in E. rewrite E in Hg. discriminate. }
  assert (Hnat : forall a b : nat, num a < num b <-> (a < b)%nat)
    by (intros a b; unfold num; rewrite <- Zlt_Qlt; lia).
  assert (Hnatle : forall a b : nat, num a <= num b <-> (a <= b)%nat)
    by (intros a b; unfold num; rewrite <- Zle_Qle; lia).
  assert (Hmain :
            num (stepCount (tracking (verifyRun challenge accel T st))) < goal
            /\ (completedOf (verifyRun challenge accel T st) = true
                <-> risingEdge (STEP_MAGNITUDE T) (lastAccelMagnitude st)
                      (magnitude accel) = true
                    /\ goal <= num (S (stepCount st)))
            /\ (completedOf (verifyRun challenge accel T st) = true ->
                stepCount (tracking (verifyRun challenge accel T st)) = 0%nat)
            /\ (exists r,
                  outcome (verifyRun challenge accel T st) = Normal r
                  /\ 0 <= performance r /\ performance r <= 1
                  /\ (completed r = false ->
                      performance r
                      = num (stepCount (tracking (verifyRun challenge accel T st)))
                        / goal))).
  { rewrite (run_tick_shape Math_sqrt). cbv zeta. unfold countedSteps.
    rewrite Htruthy, Hc. cbn [numberOf andb].
    destruct (risingEdge _ _ _).
    - destruct (ge (num (S (stepCount st))) goal) eqn:E.
      + apply ge_true_iff in E.
        cbn [tracking returns stepCount set_stepCount completedOf outcome completed].
        split; [exact Hg|]. split; [tauto|]. split; [reflexivity|].
        eexists. split; [reflexivity|]. cbn [performance completed].
        rewrite Math_min_one
          by (apply Qle_shift_div_l; [exact Hg|rewrite Qmult_1_l; exact E]).
        repeat split; try discriminate.
      + apply ge_false_iff in E.
        cbn [tracking returns stepCount set_stepCount set_lastAccelMagnitude
               completedOf outcome completed].
        split; [exact E|].
        split; [split; [discriminate|intros [_ H]; exfalso; lra]|].
        split; [discriminate|].
        eexists. split; [reflexivity|]. cbn [performance completed].
        assert (H0 : 0 <= num (S (stepCount st)))
          by (unfold num; change 0 with (inject_Z 0); rewrite <- Zle_Qle; lia).
        split; [apply Qle_shift_div_l; [exact Hg|lra]|].
        split; [apply Qle_shift_div_r; [exact Hg|lra]|reflexivity].
    - assert (E : ge (num (stepCount st)) goal = false) by (apply ge_false_iff, Hlt).
      rewrite E.
      cbn [tracking returns stepCount set_stepCount set_lastAccelMagnitude
             completedOf outcome completed].
      split; [exact Hlt|].
      split; [split; [discriminate|intros [H _]; discriminate]|].
      split; [discriminate|].
      eexists. split; [reflexivity|]. cbn [performance completed].
      split; [apply Qle_shift_div_l; [exact Hg|lra]|].
      split; [apply Qle_shift_div_r; [exact Hg|lra]|reflexivity]. }
  destruct Hmain as [H1 [H2 [H3 H4]]].
  split; [exact H1|]. split; [exact H2|]. split; [exact H3|]. split; [exact H4|].
  intros n Hn. rewrite Hn in H1, H2, Hlt.
  apply Hnat in H1. apply Hnat in Hlt. split; [exact H1|].
  rewrite H2, Hnatle. split; intros [He Hle]; (split; [exact He|lia]).
Qed.

End RunProperties.

(** X2 on the first catalogue template (three steps), at the tick that
    counts the third step. *)
Lemma run_counter_below_goal_witness :
  let st := set_stepCount 2 initialTracking in
  let t :=
    verifyRunChallenge sqrtQ runInPlace (mkVec3 0 0 1.5) (adjustedThresholds 1) st in
  (stepCount (tracking t) < 3)%nat /\ completedOf t = true.
Proof.
  cbv zeta.
  destruct (run_counter_below_goal sqrtQ runInPlace (mkVec3 0 0 1.5)
              (adjustedThresholds 1) (set_stepCount 2 initialTracking) 3)
    as [_ [_ [_ [_ H]]]]; [reflexivity|reflexivity|].
  destruct (H 3%nat) as [H1 H2]; [reflexivity|].
  split; [exact H1|]. apply H2. split; reflexivity.
Defined.

(** ** ROTATE detector: accumulation, completion and score *)

Lemma rotationStep_nonneg gyro : 0 <= rotationStep gyro.
Proof.
  unfold rotationStep, Math_abs.
  assert (H : 0 <= Qabs (z gyro)) by apply Qabs_nonneg.
  assert (Hk : 0 <= (180 / Math_PI) / 10) by (vm_compute; discriminate).
  unfold Qdiv at 1. rewrite <- Qmult_assoc.
  apply Qmult_le_0_compat; [exact H|exact Hk].
Qed.

Lemma rotationAfter_step challenge gyro T st :
  rotationAfter challenge gyro T st
  = if gt (Math_abs (z gyro)) (ROTATION_SPEED T)
    then rotationProgress st + rotationStep gyro
    else rotationProgress st.
Proof.
  unfold rotationAfter, rotationStep.
  rewrite rotation_axis_direction_blind. reflexivity.
Qed.

Lemma rotationAfter_ge challenge gyro T st :
  rotationProgress st <= rotationAfter challenge gyro T st.
Proof.
  rewrite rotationAfter_step. destruct (gt _ _); [|apply Qle_refl].
  pose proof (rotationStep_nonneg gyro). lra.
Qed.

(** How a tick of the ROTATE detector ends, in terms of the total
    [rotationAfter] it has accumulated. *)
Lemma rotate_tick_shape challenge gyro T st :
  verifyRotateChallenge challenge gyro T st
  = if truthy (degrees challenge)
       && ge (rotationAfter challenge gyro T st) (numberOf (degrees challenge))
    then
      returns true
        (Math_min 1 (numberOf (degrees challenge) / rotationAfter challenge gyro T st))
        (set_rotationProgress 0
           (set_rotationProgress (rotationAfter challenge gyro T st) st)) []
    else
      returns false
        (if truthy (degrees challenge)
         then rotationAfter challenge gyro T st / numberOf (degrees challenge) else 0)
        (if gt (Math_abs (rotationAxisOf challenge gyro)) (ROTATION_SPEED T)
         then set_rotationProgress (rotationAfter challenge gyro T st) st else st) [].
Proof.
  unfold verifyRotateChallenge, rotationAfter.
  destruct (gt _ _); cbn [rotationProgress set_rotationProgress];
    destruct (truthy _ && ge _ _); reflexivity.
Qed.

(** X3. With a positive goal in degrees and a non-negative rotation
    total, a tick of the ROTATE detector completes exactly when the total,
    with the contribution of the sample, has reached the goal; it then
    resets the total to 0 and scores goal/total, which lies in (0, 1];
    otherwise it keeps the new total, which is not below the old one, and
    reports total/goal, which lies in [0, 1). *)
Theorem rotate_completion_and_score challenge gyro T st goal :
  degrees challenge = Some goal ->
  0 < goal ->
  0 <= rotationProgress st ->
  let t := verifyRotateChallenge challenge gyro T st in
  let total := rotationAfter challenge gyro T st in
  rotationProgress st <= total
  /\ (completedOf t = true <-> goal <= total)
  /\ exists r,
      outcome t = Normal r
      /\ (completed r = true ->
          rotationProgress (tracking t) = 0
          /\ performance r == goal / total
          /\ 0 < performance r /\ performance r <= 1)
      /\ (completed r = false ->
          rotationProgress (tracking t) = total
          /\ performance r = total / goal
          /\ 0 <= performance r /\ performance r < 1).
Proof.
  intros Hd Hg Hst. cbv zeta.
  pose proof (rotationAfter_ge challenge gyro T st) as Hmono.
  split; [exact Hmono|].
  rewrite rotate_tick_shape, Hd. cbn [numberOf truthy].
  assert (Hne : Qeq_bool goal 0 = false).
  { destruct (Qeq_bool goal 0) eqn:E; [|reflexivity].
    apply Qeq_bool_iff in E. rewrite E in Hg. discriminate. }
  rewrite Hne. cbn [negb andb].
  set (total := rotationAfter challenge gyro T st) in *.
  destruct (ge total goal) eqn:E.
  - apply ge_true_iff in E.
    assert (Htot : 0 < total) by lra.
    assert (Hq : goal / total <= 1)
      by (apply Qle_shift_div_r; [exact Htot|lra]).
    assert (Hq0 : 0 < goal / total)
      by (apply Qlt_shift_div_l; [exact Htot|lra]).
    split; [unfold completedOf; cbn; tauto|].
    eexists. split; [reflexivity|].
    cbn [completed performance tracking returns rotationProgress set_rotationProgress].
    split; [|discriminate]. intros _.
    assert (Hmin : Math_min 1 (goal / total) == goal / total)
      by (unfold Math_min; apply Q.min_r; exact Hq).
    split; [reflexivity|]. split; [exact Hmin|].
    rewrite Hmin. split; assumption.
  - apply ge_false_iff in E.
    split; [unfold completedOf; cbn; split; [discriminate|intro; exfalso; lra]|].
    eexists. split; [reflexivity|].
    cbn [completed performance tracking returns].
    split; [discriminate|]. intros _.
    split.
    + unfold total, rotationAfter.
      destruct (gt _ _); cbn [rotationProgress set_rotationProgress]; reflexivity.
    + split; [reflexivity|]. split.
      * apply Qle_shift_div_l; [exact Hg|lra].
      * apply Qlt_shift_div_r; [exact Hg|lra].
Qed.

Lemma pollRotate_cons challenge T gyro rest st :
  pollRotate challenge T (gyro :: rest) st
  = verifyRotateChallenge challenge gyro T st
    :: pollRotate challenge T rest
         (tracking (verifyRotateChallenge challenge gyro T st)).
Proof. reflexivity. Qed.

(** X4. A gyroscope reading whose [|z|] exceeds the speed threshold,
    repeated on [n] ticks, adds [n * |z| * (180/pi) / 10] degrees to the
    rotation total, in either direction of rotation and for any direction
    of the challenge, as long as the goal is not reached: no tick
    completes before. *)
Theorem rotate_constant_speed challenge gyro T goal n :
  degrees challenge = Some goal ->
  ROTATION_SPEED T < Math_abs (z gyro) ->
  forall st,
    rotationProgress st + num n * rotationStep gyro < goal ->
    let ticks := pollRotate challenge T (repeat gyro n) st in
    Forall (fun t => completedOf t = false) ticks
    /\ rotationProgress (finalTracking ticks st)
       == rotationProgress st + num n * rotationStep gyro.
Proof.
  intros Hd Hz. apply gt_true_iff in Hz.
  pose proof (rotationStep_nonneg gyro) as Hstep.
  induction n as [|n IH]; intros st Hlt; cbv zeta.
  - split; [constructor|]. cbn [repeat pollRotate finalTracking fold_left].
    change (num 0) with 0. ring.
  - cbn [repeat]. rewrite pollRotate_cons.
    assert (Hnum : num (S n) == num n + 1).
    { unfold num. rewrite Nat2Z.inj_succ, <- Z.add_1_r, inject_Z_plus. reflexivity. }
    rewrite Hnum in Hlt.
    assert (Hn : 0 <= num n)
      by (unfold num; change 0 with (inject_Z 0); rewrite <- Zle_Qle; lia).
    assert (Hprod : 0 <= num n * rotationStep gyro)
      by (apply Qmult_le_0_compat; assumption).
    assert (Htotal : rotationAfter challenge gyro T st
                     = rotationProgress st + rotationStep gyro)
      by (rewrite rotationAfter_step, Hz; reflexivity).
    assert (Htick : verifyRotateChallenge challenge gyro T st
                    = returns false
                        (if truthy (degrees challenge)
                         then rotationAfter challenge gyro T st
                              / numberOf (degrees challenge) else 0)
                        (set_rotationProgress (rotationAfter challenge gyro T st) st) []).
    { rewrite rotate_tick_shape, rotation_axis_direction_blind, Hz.
      replace (ge (rotationAfter challenge gyro T st) (numberOf (degrees challenge)))
        with false; [rewrite andb_false_r; reflexivity|].
      symmetry. apply ge_false_iff. rewrite Htotal, Hd. cbn [numberOf]. lra. }
    rewrite Htick. cbn [tracking returns].
    destruct (IH (set_rotationProgress (rotationAfter challenge gyro T st) st))
      as [Hall Hfinal].
    { cbn [rotationProgress set_rotationProgress]. rewrite Htotal. lra. }
    split.
    + constructor; [reflexivity|exact Hall].
    + cbn [finalTracking fold_left tracking returns] in *.
      unfold finalTracking in Hfinal. rewrite Hfinal.
      cbn [rotationProgress set_rotationProgress]. rewrite Htotal, Hnum. ring.
Qed.

(** X3 on the clockwise template with a total of 355 degrees and a
    reading of 1 rad/s, which completes it. *)
Lemma rotate_completion_and_score_witness :
  let st := set_rotationProgress 355 initialTracking in
  completedOf
    (verifyRotateChallenge rotateClockwise (mkVec3 0 0 1) (adjustedThresholds 1) st)
  = true.
Proof.
  cbv zeta.
  destruct (rotate_completion_and_score rotateClockwise (mkVec3 0 0 1)
              (adjustedThresholds 1) (set_rotationProgress 355 initialTracking) 360)
    as [_ [H _]]; [reflexivity|reflexivity|discriminate|].
  apply H. vm_compute. discriminate.
Defined.

(** X4 on ten ticks at 1 rad/s against the clockwise template. *)
Lemma rotate_constant_speed_witness :
  rotationProgress
    (finalTracking
       (pollRotate rotateClockwise (adjustedThresholds 1)
          (repeat (mkVec3 0 0 (-1)) 10) initialTracking) initialTracking)
  == 10 * (1 * (180 / Math_PI) / 10).
Proof.
  destruct (rotate_constant_speed rotateClockwise (mkVec3 0 0 (-1))
              (adjustedThresholds 1) 360 10) with (st := initialTracking)
    as [_ H]; [reflexivity|reflexivity|reflexivity|].
  rewrite H. reflexivity.
Defined.

(** ** TILT detector: the recorded list, the two modes, the error *)

Lemma detectTilt_label gyro T :
  detectTilt gyro T = "" \/ In (detectTilt gyro T) tiltLabels.
Proof.
  unfold detectTilt, tiltLabels.
  repeat match goal with |- context [if ?c then _ else _] => destruct c end;
    simpl; auto 6.
Qed.

Lemma noRepeat_snoc (l : list string) (s : string) :
  noRepeat l ->
  (forall a, nth_error l (List.length l - 1) = Some a -> a <> s) ->
  noRepeat (l ++ [s]).
Proof.
  induction l as [|a [|b r] IH]; intros Hl Hlast.
  - exact I.
  - simpl. split; [|exact I]. apply Hlast. reflexivity.
  - destruct Hl as [Hab Hr]. change (a <> b /\ noRepeat ((b :: r) ++ [s])).
    split; [exact Hab|]. apply IH; [exact Hr|].
    intros c Hc. apply Hlast. simpl in *. rewrite Nat.sub_0_r in *. exact Hc.
Qed.

Lemma isNewTilt_last (s : string) (l : list string) :
  isNewTilt s l = true ->
  s <> "" /\ forall a, nth_error l (List.length l - 1) = Some a -> a <> s.
Proof.
  unfold isNewTilt, truthy_str. intro H.
  apply andb_true_iff in H as [Hs Hl]. split.
  - apply negb_true_iff, String.eqb_neq in Hs. exact Hs.
  - intros a Ha. rewrite Ha in Hl. apply orb_true_iff in Hl as [Hl|Hl].
    + apply Nat.eqb_eq in Hl. destruct l; [destruct (List.length [] - 1)%nat|];
        discriminate.
    + apply negb_true_iff, String.eqb_neq in Hl. exact Hl.
Qed.

Lemma isNewTilt_false_In (s : string) (l : list string) :
  s <> "" -> isNewTilt s l = false -> In s l.
Proof.
  unfold isNewTilt, truthy_str. intros Hs H.
  apply String.eqb_neq in Hs. rewrite Hs in H. cbn [negb andb] in H.
  apply orb_false_iff in H as [_ H].
  destruct (nth_error l (List.length l - 1)) as [a|] eqn:E; [|discriminate].
  apply negb_false_iff, String.eqb_eq in H. subst a.
  eapply nth_error_In. exact E.
Qed.

Lemma recorded_Debounced gyro T l :
  Debounced l -> Debounced (recordedTransitions gyro T l).
Proof.
  intros [Hn Hf]. unfold recordedTransitions.
  destruct (isNewTilt _ _) eqn:E; [|split; assumption].
  apply isNewTilt_last in E as [Hs Hlast]. split.
  - apply noRepeat_snoc; assumption.
  - apply Forall_app. split; [exact Hf|]. constructor; [|constructor].
    destruct (detectTilt_label gyro T) as [H|H]; [contradiction|exact H].
Qed.

(** After a tick the recorded list is either cleared (the tick completed)
    or the list with the transition of the tick. *)
Lemma tilt_tick_states challenge gyro T now st :
  let t := verifyTiltChallenge challenge gyro T now st in
  (completedOf t = true /\ tiltStates (tracking t) = [])
  \/ (completedOf t = false
      /\ tiltStates (tracking t) = recordedTransitions gyro T (tiltStates st)).
Proof.
  cbv zeta. unfold verifyTiltChallenge.
  pose proof (recorded_tiltStates gyro T st) as Hrec.
  assert (Hseq : forall st' played,
             tiltStates st' = recordedTransitions gyro T (tiltStates st) ->
             (completedOf (tiltSequence challenge st' played) = true
              /\ tiltStates (tracking (tiltSequence challenge st' played)) = [])
             \/ (completedOf (tiltSequence challenge st' played) = false
                 /\ tiltStates (tracking (tiltSequence challenge st' played))
                    = recordedTransitions gyro T (tiltStates st))).
  { intros st' played Hst'. unfold tiltSequence.
    destruct (directions challenge) as [required|].
    - destruct (Nat.eqb _ _); [left|right]; split; try reflexivity; exact Hst'.
    - right. split; [reflexivity|exact Hst']. }
  destruct (holdCondition challenge (detectTilt gyro T)) as [[|]|].
  - destruct (Z.eqb _ _); [apply Hseq; exact Hrec|].
    match goal with |- context [if ?c then _ else _] => destruct c end.
    + left. split; reflexivity.
    + apply Hseq. exact Hrec.
  - apply Hseq. exact Hrec.
  - right. split; [reflexivity|exact Hrec].
Qed.

Lemma pollTilt_cons challenge T now gyro rest st :
  pollTilt challenge T ((now, gyro) :: rest) st
  = verifyTiltChallenge challenge gyro T now st
    :: pollTilt challenge T rest
         (tracking (verifyTiltChallenge challenge gyro T now st)).
Proof. reflexivity. Qed.

(** X5. Debouncing: from a debounced transition list (the empty list of
    a reset, for one), every tick of the TILT detector, on any challenge,
    sample and clock, leaves a list that holds only the labels forward,
    backward, right, left and never the same label twice in a row; a tick
    that completes leaves it empty. *)
Theorem tilt_states_stay_debounced challenge T samples :
  forall st,
    Debounced (tiltStates st) ->
    Forall (fun t => Debounced (tiltStates (tracking t))
                     /\ (completedOf t = true -> tiltStates (tracking t) = []))
      (pollTilt challenge T samples st).
Proof.
  induction samples as [|[now gyro] rest IH]; intros st Hst; [constructor|].
  rewrite pollTilt_cons.
  assert (H : Debounced
                (tiltStates (tracking (verifyTiltChallenge challenge gyro T now st)))
              /\ (completedOf (verifyTiltChallenge challenge gyro T now st) = true ->
                  tiltStates (tracking (verifyTiltChallenge challenge gyro T now st))
                  = [])).
  { destruct (tilt_tick_states challenge gyro T now st) as [[Hc ->]|[Hc ->]].
    - split; [split; constructor|reflexivity].
    - split; [apply recorded_Debounced; exact Hst|]. rewrite Hc. discriminate. }
  constructor; [exact H|]. apply IH. exact (proj1 H).
Qed.

(** The TILT detector raises exactly when the challenge sets a hold
    duration and no list of directions. *)
Lemma tilt_raises_iff challenge gyro T now st :
  outcome (verifyTiltChallenge challenge gyro T now st) = TypeError
  <-> truthy (duration challenge) = true /\ directions challenge = None.
Proof.
  assert (Hseq : forall st' played,
             outcome (tiltSequence challenge st' played) <> TypeError).
  { intros st' played. unfold tiltSequence.
    destruct (directions challenge); [destruct (Nat.eqb _ _)|]; discriminate. }
  unfold verifyTiltChallenge, holdCondition.
  destruct (truthy (duration challenge)); [destruct (directions challenge) as [ds|]|].
  - split; [|intros [_ H]; discriminate]. intro H. exfalso. revert H.
    destruct (match nth_error ds 0 with Some d => _ | None => _ end);
      [destruct (Z.eqb _ _); [apply Hseq|];
       match goal with |- context [if ?c then _ else _] => destruct c end;
       [discriminate|apply Hseq]
      |apply Hseq].
  - split; [split|]; reflexivity.
  - split; [|intros [H _]; discriminate]. intro H. exfalso. revert H. apply Hseq.
Qed.

Lemma In_Subseq_single (d : string) (l : list string) : In d l -> Subseq [d] l.
Proof.
  induction l as [|a l IH]; intros H; [contradiction|].
  destruct H as [->|H].
  - apply Subseq_take, Subseq_nil.
  - apply Subseq_skip, IH, H.
Qed.

(** X6. Whenever the challenge sets a list of directions, a tick whose
    recorded transition list contains them as a subsequence completes with
    performance 1, with or without a hold duration.  In particular a
    challenge with the single direction [d], such as the catalogue's "Hold
    device tilted left for 3 seconds", completes on any tick that
    classifies the sample as [d]: the hold is never waited for. *)
Theorem tilt_sequence_check_overrides_hold challenge gyro T now st :
  (forall required,
      directions challenge = Some required ->
      Subseq required (recordedTransitions gyro T (tiltStates st)) ->
      outcome (verifyTiltChallenge challenge gyro T now st)
      = Normal (mkResult true 1))
  /\ (forall d,
         directions challenge = Some [d] ->
         detectTilt gyro T = d -> d <> "" ->
         outcome (verifyTiltChallenge challenge gyro T now st)
         = Normal (mkResult true 1)).
Proof.
  assert (Hmain : forall required,
             directions challenge = Some required ->
             Subseq required (recordedTransitions gyro T (tiltStates st)) ->
             outcome (verifyTiltChallenge challenge gyro T now st)
             = Normal (mkResult true 1)).
  { intros required Hd Hsub.
    destruct (tilt_tick_cases challenge gyro T now st) as [H|[H|[st' [Hst' H]]]].
    - apply tilt_raises_iff in H as [_ H]. congruence.
    - exact H.
    - rewrite H. unfold tiltSequence. rewrite Hd, Hst'.
      apply scanDirections_complete_iff in Hsub. rewrite Hsub. reflexivity. }
  split; [exact Hmain|].
  intros d Hd Hdet Hne. apply (Hmain [d] Hd).
  apply In_Subseq_single. unfold recordedTransitions. rewrite Hdet.
  destruct (isNewTilt d (tiltStates st)) eqn:E.
  - apply in_or_app. right. now left.
  - apply isNewTilt_false_In; assumption.
Qed.

(** X5 on a stream from the reset state. *)
Lemma tilt_states_stay_debounced_witness :
  Forall (fun t => Debounced (tiltStates (tracking t))
                   /\ (completedOf t = true -> tiltStates (tracking t) = []))
    (pollTilt tiltLeftRight (adjustedThresholds 1)
       [(100, tiltForward); (200, tiltForward); (300, atRest); (400, tiltForward)]%Z
       initialTracking).
Proof.
  apply tilt_states_stay_debounced. split; constructor.
Defined.

(** X6 on the hold template of the catalogue: the first tick that sees
    the device tilted left completes it. *)
Lemma tilt_sequence_check_overrides_hold_witness :
  let holdLeft := withType (Some CHALLENGE_TYPES.TILT) (nth_error CHALLENGES_TILT 3) in
  duration holdLeft = Some 3
  /\ outcome (verifyTiltChallenge holdLeft tiltLeft (adjustedThresholds 1) 100
                initialTracking)
     = Normal (mkResult true 1).
Proof.
  cbv zeta. split; [reflexivity|].
  apply (proj2 (tilt_sequence_check_overrides_hold _ tiltLeft (adjustedThresholds 1)
                  100%Z initialTracking) "left"); [reflexivity|reflexivity|discriminate].
Defined.

(** ** Thresholds and difficulty *)

(** X7. The adjusted thresholds are monotone in the sensitivity
    multiplier: a larger multiplier lowers (never raises) the step,
    rotation and tilt thresholds and widens (never narrows) the direction
    tolerance.  Hence the sensitivity 0.7 that the settings screen stores
    for "easy" gives strictly higher motion thresholds than the 1.3 it
    stores for "hard". *)
Theorem adjusted_thresholds_monotone :
  (forall m m',
      0 < m -> m <= m' ->
      STEP_MAGNITUDE (adjustedThresholds m') <= STEP_MAGNITUDE (adjustedThresholds m)
      /\ ROTATION_SPEED (adjustedThresholds m') <= ROTATION_SPEED (adjustedThresholds m)
      /\ TILT_ANGLE (adjustedThresholds m') <= TILT_ANGLE (adjustedThresholds m)
      /\ DIRECTION_TOLERANCE (adjustedThresholds m)
         <= DIRECTION_TOLERANCE (adjustedThresholds m'))
  /\ (forall storage,
         let easy := sensitivity (getDifficultySettings (changeDifficulty "easy" storage)) in
         let hard := sensitivity (getDifficultySettings (changeDifficulty "hard" storage)) in
         STEP_MAGNITUDE (adjustedThresholds hard) < STEP_MAGNITUDE (adjustedThresholds easy)
         /\ ROTATION_SPEED (adjustedThresholds hard)
            < ROTATION_SPEED (adjustedThresholds easy)
         /\ TILT_ANGLE (adjustedThresholds hard) < TILT_ANGLE (adjustedThresholds easy)).
Proof.
  split.
  - intros m m' Hm Hle.
    assert (Hm' : 0 < m') by lra.
    assert (Hinv : / m' <= / m).
    { apply Qle_shift_inv_l; [exact Hm|].
      setoid_replace (/ m' * m) with (m / m') by (unfold Qdiv; ring).
      apply Qle_shift_div_r; [exact Hm'|lra]. }
    unfold adjustedThresholds, THRESHOLDS, Qdiv.
    cbn [STEP_MAGNITUDE ROTATION_SPEED TILT_ANGLE DIRECTION_TOLERANCE].
    repeat split; try (apply Qmult_le_l; [reflexivity|exact Hinv]).
    apply Qmult_le_l; [reflexivity|exact Hle].
  - intros storage. cbv zeta. repeat split.
Qed.

Section DispatchProperties.

Variable Math_sqrt : Q -> Q.
Variable Math_atan2 : Q -> Q -> Q.

Local Abbreviation verify := (verifyChallengeCompletion Math_sqrt Math_atan2).
Local Abbreviation verifyRun := (verifyRunChallenge Math_sqrt).
Local Abbreviation verifyDirection := (verifyDirectionChallenge Math_atan2).
Local Abbreviation heading := (normalizedHeadingOf Math_atan2).
Local Abbreviation diff := (diffOf Math_atan2).
Local Abbreviation matched := (isMatchedOf Math_atan2).

Lemma dispatch_raises_iff challenge sensorData m now st :
  outcome (verify (Some challenge) (Some sensorData) m now st) = TypeError
  <-> type challenge = Some CHALLENGE_TYPES.TILT
      /\ truthy (duration challenge) = true
      /\ directions challenge = None.
Proof.
  unfold verifyChallengeCompletion, typeIs.
  assert (Hrun : forall T, outcome (verifyRun challenge (accelerometer sensorData) T st)
                           <> TypeError).
  { intro T. unfold verifyRunChallenge. destruct (count challenge);
      repeat match goal with |- context [if ?c then _ else _] => destruct c end;
      discriminate. }
  assert (Hrot : forall T, outcome (verifyRotateChallenge challenge
                                      (gyroscope sensorData) T st) <> TypeError).
  { intro T. rewrite rotate_tick_shape.
    match goal with |- context [if ?c then _ else _] => destruct c end; discriminate. }
  assert (Hdir : forall T, outcome (verifyDirection challenge
                                      (magnetometer sensorData) T now st) <> TypeError).
  { intro T. unfold verifyDirectionChallenge.
    repeat match goal with |- context [if ?c then _ else _] => destruct c end;
      discriminate. }
  destruct (type challenge) as [t|].
  - destruct (String.eqb_spec t CHALLENGE_TYPES.RUN) as [->|H1];
      [split; [intro H; exfalso; eapply Hrun; exact H|intros [E _]; discriminate]|].
    destruct (String.eqb_spec t CHALLENGE_TYPES.ROTATE) as [->|H2];
      [split; [intro H; exfalso; eapply Hrot; exact H|intros [E _]; discriminate]|].
    destruct (String.eqb_spec t CHALLENGE_TYPES.TILT) as [->|H3].
    { rewrite tilt_raises_iff. tauto. }
    destruct (String.eqb_spec t CHALLENGE_TYPES.DIRECTION) as [->|H4];
      [split; [intro H; exfalso; eapply Hdir; exact H|intros [E _]; discriminate]|].
    split; [|intros [E _]; congruence].
    destruct (gt _ _); discriminate.
  - split; [|intros [E _]; discriminate]. destruct (gt _ _); discriminate.
Qed.

(** X8. [verifyChallengeCompletion], given a challenge and a sample,
    raises exactly on a challenge of type TILT that sets a hold duration
    and no list of directions; for every other challenge it returns a
    result. *)
Theorem verifyChallengeCompletion_raises_iff challenge sensorData m now st :
  outcome (verify (Some challenge) (Some sensorData) m now st) = TypeError
  <-> type challenge = Some CHALLENGE_TYPES.TILT
      /\ truthy (duration challenge) = true
      /\ directions challenge = None.
Proof. apply dispatch_raises_iff. Qed.

(** X9. No detector touches the tracking variables of another: RUN
    changes only the last magnitude and the step counter, ROTATE only the
    rotation total, TILT only the transition list, the match time and the
    match duration, DIRECTION only the match flag and the match time. *)
Theorem detectors_keep_to_their_variables challenge T now st :
  (forall accel,
      let st' := tracking (verifyRun challenge accel T st) in
      rotationProgress st' = rotationProgress st
      /\ tiltStates st' = tiltStates st
      /\ directionMatched st' = directionMatched st
      /\ lastDirectionMatchTime st' = lastDirectionMatchTime st
      /\ directionMatchDuration st' = directionMatchDuration st)
  /\ (forall gyro,
         let st' := tracking (verifyRotateChallenge challenge gyro T st) in
         lastAccelMagnitude st' = lastAccelMagnitude st
         /\ stepCount st' = stepCount st
         /\ tiltStates st' = tiltStates st
         /\ directionMatched st' = directionMatched st
         /\ lastDirectionMatchTime st' = lastDirectionMatchTime st
         /\ directionMatchDuration st' = directionMatchDuration st)
  /\ (forall gyro,
         let st' := tracking (verifyTiltChallenge challenge gyro T now st) in
         lastAccelMagnitude st' = lastAccelMagnitude st
         /\ stepCount st' = stepCount st
         /\ rotationProgress st' = rotationProgress st
         /\ directionMatched st' = directionMatched st)
  /\ (forall magnet,
         let st' := tracking (verifyDirection challenge magnet T now st) in
         lastAccelMagnitude st' = lastAccelMagnitude st
         /\ stepCount st' = stepCount st
         /\ rotationProgress st' = rotationProgress st
         /\ tiltStates st' = tiltStates st
         /\ directionMatchDuration st' = directionMatchDuration st).
Proof.
  split; [|split; [|split]].
  - intro accel. cbv zeta. unfold verifyRunChallenge.
    destruct (count challenge);
      repeat match goal with |- context [if ?c then _ else _] => destruct c end;
      repeat split.
  - intro gyro. cbv zeta. unfold verifyRotateChallenge.
    repeat match goal with |- context [if ?c then _ else _] => destruct c end;
      repeat split.
  - intro gyro. cbv zeta. unfold verifyTiltChallenge, tiltSequence.
    destruct (holdCondition challenge (detectTilt gyro T)) as [[|]|];
      destruct (directions challenge);
      repeat match goal with |- context [if ?c then _ else _] => destruct c end;
      repeat split.
  - intro magnet. cbv zeta. unfold verifyDirectionChallenge.
    repeat match goal with |- context [if ?c then _ else _] => destruct c end;
      repeat split.
Qed.

(** ** DIRECTION detector: ranges and the tolerance of the template *)

Lemma getHeadingFromDirection_range d :
  0 <= getHeadingFromDirection d /\ getHeadingFromDirection d <= 315.
Proof.
  unfold getHeadingFromDirection. destruct d as [|n|s]; try (split; discriminate).
  repeat match goal with |- context [if ?c then _ else _] => destruct c end;
    split; discriminate.
Qed.

Lemma headingDiff_range (a b : Q) :
  0 <= a -> a <= 360 -> 0 <= b -> b <= 360 ->
  0 <= headingDiff a b /\ headingDiff a b <= 180.
Proof.
  intros Ha0 Ha1 Hb0 Hb1. unfold headingDiff, Math_abs.
  assert (Habs0 : 0 <= Qabs (a - b)) by apply Qabs_nonneg.
  assert (Habs1 : Qabs (a - b) <= 360) by (apply Qabs_Qle_condition; split; lra).
  destruct (gt (Qabs (a - b)) 180) eqn:E.
  - apply gt_true_iff in E. split; lra.
  - apply gt_false_iff in E. split; lra.
Qed.

(** X10. For a magnetometer sample whose heading, as [atan2] gives it,
    lies between -180 and 180 degrees, and a positive tolerance, the
    shorter-arc difference to the target lies in [0, 180], and a tick of
    the DIRECTION detector returns a performance in [0, 1]: the closeness
    [1 - diff/180] while the challenge is not complete, and
    [1 - diff/tolerance] when it completes. *)
Theorem direction_performance_in_unit_interval challenge magnet T now st :
  - (180) <= Math_atan2 (y magnet) (x magnet) * (180 / Math_PI) ->
  Math_atan2 (y magnet) (x magnet) * (180 / Math_PI) <= 180 ->
  0 < toleranceOf challenge T ->
  0 <= diff challenge magnet /\ diff challenge magnet <= 180
  /\ exists r,
      outcome (verifyDirection challenge magnet T now st) = Normal r
      /\ 0 <= performance r /\ performance r <= 1
      /\ (completed r = false -> performance r == 1 - diff challenge magnet / 180)
      /\ (completed r = true ->
          performance r = 1 - diff challenge magnet / toleranceOf challenge T).
Proof.
  intros Hlo Hhi Htol.
  assert (Hh : 0 <= heading magnet /\ heading magnet <= 360).
  { unfold normalizedHeadingOf.
    destruct (lt _ 0) eqn:E.
    - apply negb_true_iff in E. split; [lra|].
      destruct (Qlt_le_dec (Math_atan2 (y magnet) (x magnet) * (180 / Math_PI)) 0)
        as [Hneg|Hpos]; [lra|].
      apply Qle_bool_iff in Hpos. unfold lt in E. congruence.
    - apply negb_false_iff, Qle_bool_iff in E. split; lra. }
  destruct (getHeadingFromDirection_range (direction challenge)) as [Ht0 Ht1].
  assert (Hd : 0 <= diff challenge magnet /\ diff challenge magnet <= 180)
    by (unfold diffOf; apply headingDiff_range; lra).
  destruct Hd as [Hd0 Hd1]. split; [exact Hd0|]. split; [exact Hd1|].
  assert (Hq : 0 <= diff challenge magnet / 180 /\ diff challenge magnet / 180 <= 1).
  { split; [apply Qle_shift_div_l|apply Qle_shift_div_r]; lra. }
  assert (Hprog : Math_max 0 (1 - diff challenge magnet / 180)
                  == 1 - diff challenge magnet / 180)
    by (unfold Math_max; apply Q.max_r; lra).
  unfold verifyDirectionChallenge.
  destruct (matched challenge magnet T) eqn:Em.
  - destruct (negb (directionMatched st)).
    + eexists. split; [reflexivity|]. cbn [performance completed].
      split; [rewrite Hprog; lra|]. split; [rewrite Hprog; lra|].
      split; [intros _; exact Hprog|discriminate].
    + destruct (ge _ 2).
      * eexists. split; [reflexivity|]. cbn [performance completed].
        apply le_true_iff in Em.
        assert (Hr : 0 <= diff challenge magnet / toleranceOf challenge T
                     /\ diff challenge magnet / toleranceOf challenge T <= 1).
        { split; [apply Qle_shift_div_l|apply Qle_shift_div_r]; lra. }
        repeat split; try lra; try discriminate.
      * eexists. split; [reflexivity|]. cbn [performance completed].
        split; [rewrite Hprog; lra|]. split; [rewrite Hprog; lra|].
      split; [intros _; exact Hprog|discriminate].
  - eexists. split; [reflexivity|]. cbn [performance completed].
    split; [rewrite Hprog; lra|]. split; [rewrite Hprog; lra|].
      split; [intros _; exact Hprog|discriminate].
Qed.

(** X11. A DIRECTION template that sets its own tolerance is verified
    the same under every sensitivity multiplier: the adjusted default
    tolerance is read only when the template has none.  All five DIRECTION
    templates of the catalogue set their tolerance, so the multiplier
    never has an effect on a generated DIRECTION challenge. *)
Theorem direction_tolerance_overrides_multiplier :
  (forall challenge magnet T T' now st,
      truthy (tolerance challenge) = true ->
      verifyDirection challenge magnet T now st
      = verifyDirection challenge magnet T' now st)
  /\ (forall template sensorData m m' now st,
         In template CHALLENGES_DIRECTION ->
         let challenge :=
           withType (Some CHALLENGE_TYPES.DIRECTION) (Some template) in
         verify (Some challenge) (Some sensorData) m now st
         = verify (Some challenge) (Some sensorData) m' now st).
Proof.
  assert (H1 : forall challenge magnet T T' now st,
             truthy (tolerance challenge) = true ->
             verifyDirection challenge magnet T now st
             = verifyDirection challenge magnet T' now st).
  { intros challenge magnet T T' now st H.
    unfold verifyDirectionChallenge, isMatchedOf, toleranceOf. rewrite H. reflexivity. }
  split; [exact H1|].
  intros template sensorData m m' now st Hin. cbv zeta.
  unfold verifyChallengeCompletion, typeIs.
  rewrite type_withType.
  change (String.eqb CHALLENGE_TYPES.DIRECTION CHALLENGE_TYPES.RUN) with false.
  change (String.eqb CHALLENGE_TYPES.DIRECTION CHALLENGE_TYPES.ROTATE) with false.
  change (String.eqb CHALLENGE_TYPES.DIRECTION CHALLENGE_TYPES.TILT) with false.
  change (String.eqb CHALLENGE_TYPES.DIRECTION CHALLENGE_TYPES.DIRECTION) with true.
  cbv iota. apply H1.
  simpl in Hin.
  repeat (destruct Hin as [<-|Hin]; [reflexivity|]). contradiction.
Qed.

End DispatchProperties.

(** X7 at the two sensitivities of the settings screen. *)
Lemma adjusted_thresholds_monotone_witness :
  STEP_MAGNITUDE (adjustedThresholds 1.3) <= STEP_MAGNITUDE (adjustedThresholds 0.7)
  /\ DIRECTION_TOLERANCE (adjustedThresholds 0.7)
     <= DIRECTION_TOLERANCE (adjustedThresholds 1.3).
Proof.
  destruct (proj1 adjusted_thresholds_monotone 0.7 1.3) as [H1 [_ [_ H4]]];
    [reflexivity|discriminate|].
  split; assumption.
Defined.

(** X10 on "Face North" and a sample read as heading 350 degrees. *)
Lemma direction_performance_in_unit_interval_witness :
  diffOf atan2Degrees faceNorth (mkVec3 0 (-10) 0) <= 180
  /\ exists r,
      outcome (verifyDirectionChallenge atan2Degrees faceNorth (mkVec3 0 (-10) 0)
                 (adjustedThresholds 1) 0 initialTracking) = Normal r
      /\ 0 <= performance r /\ performance r <= 1.
Proof.
  destruct (direction_performance_in_unit_interval atan2Degrees faceNorth
              (mkVec3 0 (-10) 0) (adjustedThresholds 1) 0%Z initialTracking)
    as [_ [Hd [r [Hr [H0 [H1 _]]]]]];
    [vm_compute; discriminate|vm_compute; discriminate|reflexivity|].
  split; [exact Hd|]. exists r. repeat split; assumption.
Defined.

(** X11 on "Face East" at the multipliers 0.7 and 1.3. *)
Lemma direction_tolerance_overrides_multiplier_witness :
  let faceEast :=
    withType (Some CHALLENGE_TYPES.DIRECTION) (nth_error CHALLENGES_DIRECTION 1) in
  let data := mkSensorData atRest atRest (mkVec3 0 115 0) in
  verifyChallengeCompletion sqrtQ atan2Degrees (Some faceEast) (Some data)
    (Some 0.7) 0 initialTracking
  = verifyChallengeCompletion sqrtQ atan2Degrees (Some faceEast) (Some data)
      (Some 1.3) 0 initialTracking.
Proof.
  cbv zeta.
  apply (proj2 (direction_tolerance_overrides_multiplier sqrtQ atan2Degrees)).
  simpl. auto.
Defined.

(** ** Challenge generation: what is returned and what can be *)

Lemma CHALLENGES_nonempty (t : string) (l : list Challenge) :
  CHALLENGES (Some t) = Some l -> (0 < List.length l)%nat.
Proof.
  unfold CHALLENGES.
  repeat match goal with |- context [if ?c then _ else _] => destruct c end;
    intro H; try discriminate; injection H as <-; simpl; lia.
Qed.

(** The templates of the catalogue never pair a hold duration with a
    missing list of directions. *)
Lemma CHALLENGES_directions (t : string) (l : list Challenge) (template : Challenge) :
  CHALLENGES (Some t) = Some l -> In template l ->
  truthy (duration template) = true -> directions template <> None.
Proof.
  unfold CHALLENGES.
  repeat match goal with |- context [if ?c then _ else _] => destruct c end;
    intro H; try discriminate; injection H as <-; simpl;
    intros Hin; repeat (destruct Hin as [<-|Hin]; [simpl; discriminate|]);
    contradiction.
Qed.

Lemma index_of_nat {A : Type} (l : list A) (i : nat) :
  index l (Z.of_nat i) = nth_error l i.
Proof.
  unfold index. destruct (Z.ltb_spec (Z.of_nat i) 0) as [H|_]; [lia|].
  rewrite Nat2Z.id. reflexivity.
Qed.

(** The draw [i/n] selects index [i] of a list of length [n]. *)
Lemma draw_for_index (n i : nat) :
  (i < n)%nat ->
  0 <= num i / num n /\ num i / num n < 1
  /\ Math_floor (num i / num n * num n) = Z.of_nat i.
Proof.
  intro H. unfold num, Math_floor.
  assert (Hn : 0 < inject_Z (Z.of_nat n))
    by (change 0 with (inject_Z 0); rewrite <- Zlt_Qlt; lia).
  split; [|split].
  - apply Qle_shift_div_l; [exact Hn|]. rewrite Qmult_0_l.
    change 0 with (inject_Z 0). rewrite <- Zle_Qle. lia.
  - apply Qlt_shift_div_r; [exact Hn|]. rewrite Qmult_1_l, <- Zlt_Qlt. lia.
  - assert (E : inject_Z (Z.of_nat i) / inject_Z (Z.of_nat n) * inject_Z (Z.of_nat n)
                == inject_Z (Z.of_nat i))
      by (field; intro E; rewrite E in Hn; discriminate).
    rewrite (Qfloor_comp _ _ E). apply Qfloor_Z.
Qed.

Section GenerationProperties.

Variable Math_sqrt : Q -> Q.
Variable Math_atan2 : Q -> Q -> Q.

(** X12. With at least one sensor available and both draws in [0, 1),
    [generateChallenge] returns a template of the catalogue under an
    eligible type, tagged with that type; and [verifyChallengeCompletion]
    never raises on the challenge it returns, for any sample, multiplier,
    clock and tracking state. *)
Theorem generateChallenge_returns_catalogue_template sensors random1 random2 :
  availableChallengeTypes sensors <> [] ->
  0 <= random1 -> random1 < 1 -> 0 <= random2 -> random2 < 1 ->
  exists t templates template,
    In t (availableChallengeTypes sensors)
    /\ CHALLENGES (Some t) = Some templates
    /\ In template templates
    /\ generateChallenge sensors random1 random2
       = Normal (withType (Some t) (Some template))
    /\ forall sensorData m now st,
        outcome (verifyChallengeCompletion Math_sqrt Math_atan2
                   (Some (withType (Some t) (Some template)))
                   (Some sensorData) m now st) <> TypeError.
Proof.
  intros Hne H10 H11 H20 H21. unfold generateChallenge.
  destruct (Nat.eqb (List.length (availableChallengeTypes sensors)) 0) eqn:E.
  { apply Nat.eqb_eq in E. destruct (availableChallengeTypes sensors);
      [contradiction|discriminate]. }
  apply Nat.eqb_neq in E.
  destruct (index_in_range (availableChallengeTypes sensors)
              (Math_floor (random1 * num (List.length (availableChallengeTypes sensors)))))
    as [t Ht]; [apply Math_floor_random; try assumption; lia|].
  rewrite Ht. pose proof (index_In _ _ _ Ht) as Hin.
  destruct (CHALLENGES (Some t)) as [templates|] eqn:Ec;
    [|exfalso; apply (CHALLENGES_defined sensors t Hin Ec)].
  pose proof (CHALLENGES_nonempty t templates Ec) as Hlen.
  destruct (index_in_range templates
              (Math_floor (random2 * num (List.length templates))))
    as [template Htemplate]; [apply Math_floor_random; assumption|].
  rewrite Htemplate. pose proof (index_In _ _ _ Htemplate) as Hin'.
  exists t, templates, template. repeat split; try assumption.
  intros sensorData m now st Hraise.
  apply dispatch_raises_iff in Hraise as [_ [Hdur Hdir]].
  apply (CHALLENGES_directions t templates template Ec Hin'); assumption.
Qed.

End GenerationProperties.

(** X13. Every template of the catalogue whose type is eligible can be
    drawn: for each one there are two draws in [0, 1) on which
    [generateChallenge] returns it, tagged with its type. *)
Theorem generateChallenge_reaches_every_template sensors t templates template :
  In t (availableChallengeTypes sensors) ->
  CHALLENGES (Some t) = Some templates ->
  In template templates ->
  exists random1 random2,
    0 <= random1 /\ random1 < 1 /\ 0 <= random2 /\ random2 < 1
    /\ generateChallenge sensors random1 random2
       = Normal (withType (Some t) (Some template)).
Proof.
  intros Ht Hc Htemplate.
  apply In_nth_error in Ht as [i Hi].
  apply In_nth_error in Htemplate as [j Hj].
  assert (Hi' : (i < List.length (availableChallengeTypes sensors))%nat)
    by (apply nth_error_Some; congruence).
  assert (Hj' : (j < List.length templates)%nat)
    by (apply nth_error_Some; congruence).
  destruct (draw_for_index _ _ Hi') as [Ha [Hb Hfloor1]].
  destruct (draw_for_index _ _ Hj') as [Hc' [Hd Hfloor2]].
  exists (num i / num (List.length (availableChallengeTypes sensors))),
    (num j / num (List.length templates)).
  repeat split; try assumption.
  unfold generateChallenge.
  destruct (Nat.eqb_spec (List.length (availableChallengeTypes sensors)) 0) as [E|_];
    [lia|].
  rewrite Hfloor1, index_of_nat, Hi, Hc, Hfloor2, index_of_nat, Hj. reflexivity.
Qed.

(** X12 on a device with every sensor and the draws 0.6 and 0.3. *)
Lemma generateChallenge_returns_catalogue_template_witness :
  exists t templates template,
    In t (availableChallengeTypes (mkSensorStatus true true true))
    /\ CHALLENGES (Some t) = Some templates
    /\ In template templates
    /\ generateChallenge (mkSensorStatus true true true) 0.6 0.3
       = Normal (withType (Some t) (Some template)).
Proof.
  destruct (generateChallenge_returns_catalogue_template sqrtQ atan2Degrees
              (mkSensorStatus true true true) 0.6 0.3)
    as [t [templates [template [H1 [H2 [H3 [H4 _]]]]]]];
    try discriminate; try reflexivity.
  exists t, templates, template. repeat split; assumption.
Defined.

(** X13 on the hold template of the TILT catalogue. *)
Lemma generateChallenge_reaches_every_template_witness :
  exists random1 random2,
    0 <= random1 /\ random1 < 1 /\ 0 <= random2 /\ random2 < 1
    /\ generateChallenge (mkSensorStatus true true true) random1 random2
       = Normal (withType (Some CHALLENGE_TYPES.TILT) (nth_error CHALLENGES_TILT 3)).
Proof.
  apply (generateChallenge_reaches_every_template (mkSensorStatus true true true)
           CHALLENGE_TYPES.TILT CHALLENGES_TILT).
  - simpl. auto.
  - reflexivity.
  - simpl. auto.
Defined.

(** * Properties of the screens of [App.js] *)

(** ** Points *)

Lemma Math_round_between (a b : Z) (q : Q) :
  inject_Z a <= q -> q <= inject_Z b -> (a <= Math_round q <= b)%Z.
Proof.
  intros Ha Hb. unfold Math_round. split.
  - rewrite <- (Qfloor_Z a). apply Qfloor_resp_le. lra.
  - assert (H : inject_Z (Qfloor (q + (1 # 2))) < inject_Z (b + 1)).
    { apply Qle_lt_trans with (q + (1 # 2)); [apply Qfloor_le|].
      rewrite inject_Z_plus. change (inject_Z 1) with 1. lra. }
    rewrite <- Zlt_Qlt in H. lia.
Qed.

Lemma run_completes_with_one Math_sqrt challenge accel T st r :
  (forall goal, count challenge = Some goal -> 0 < goal) ->
  outcome (verifyRunChallenge Math_sqrt challenge accel T st) = Normal r ->
  completed r = true -> performance r = 1.
Proof.
  intro Hpos. rewrite run_tick_shape. cbv zeta.
  destruct (truthy (count challenge) && ge _ _) eqn:E;
    cbn [outcome returns]; intros Hr Hc; injection Hr as <-;
    cbn [completed performance] in *; [|discriminate].
  apply andb_true_iff in E as [Ht Hge]. apply ge_true_iff in Hge.
  destruct (count challenge) as [goal|]; [|discriminate].
  specialize (Hpos goal eq_refl). cbn [numberOf] in *.
  apply Math_min_one, Qle_shift_div_l; [exact Hpos|].
  rewrite Qmult_1_l. exact Hge.
Qed.

(** X14. The points of a completion are [Math.round(performance * 100)]:
    between 0 and 100 whenever the performance is in [0, 1]; exactly 100
    for every completion of the RUN detector on a challenge whose step
    goal is positive and for every completion of the TILT detector;
    exactly 70 for the fallback check of a challenge of unknown type. *)
Theorem completion_points Math_sqrt Math_atan2 :
  (forall r, 0 <= performance r -> performance r <= 1 ->
             (0 <= pointsOf r <= 100)%Z)
  /\ (forall challenge accel T st,
         (forall goal, count challenge = Some goal -> 0 < goal) ->
         completedOf (verifyRunChallenge Math_sqrt challenge accel T st) = true ->
         completionPoints (verifyRunChallenge Math_sqrt challenge accel T st)
         = Some 100%Z)
  /\ (forall challenge gyro T now st,
         completedOf (verifyTiltChallenge challenge gyro T now st) = true ->
         completionPoints (verifyTiltChallenge challenge gyro T now st) = Some 100%Z)
  /\ (forall sensorData m now st,
         let t :=
           verifyChallengeCompletion Math_sqrt Math_atan2 (Some basicChallenge)
             (Some sensorData) m now st in
         completedOf t = true ->
         completionPoints t = Some 70%Z /\ tracking t = st /\ sounds t = []).
Proof.
  split; [|split; [|split]].
  - intros r H0 H1. unfold pointsOf.
    apply Math_round_between; change (inject_Z 0) with 0;
      change (inject_Z 100) with 100; lra.
  - intros challenge accel T st Hpos. unfold completedOf, completionPoints.
    destruct (outcome _) as [r|] eqn:E; [|discriminate].
    intro Hc. rewrite Hc. unfold pointsOf.
    rewrite (run_completes_with_one _ _ _ _ _ _ Hpos E Hc). reflexivity.
  - intros challenge gyro T now st. unfold completedOf, completionPoints.
    destruct (outcome _) as [r|] eqn:E; [|discriminate].
    intro Hc. rewrite Hc. unfold pointsOf.
    rewrite (tilt_completes_with_one _ _ _ _ _ _ E Hc). reflexivity.
  - intros sensorData m now st. cbv zeta.
    unfold verifyChallengeCompletion, typeIs. cbn [type basicChallenge].
    change (String.eqb "BASIC" CHALLENGE_TYPES.RUN) with false.
    change (String.eqb "BASIC" CHALLENGE_TYPES.ROTATE) with false.
    change (String.eqb "BASIC" CHALLENGE_TYPES.TILT) with false.
    change (String.eqb "BASIC" CHALLENGE_TYPES.DIRECTION) with false.
    cbv iota. destruct (gt _ _); [intros _|discriminate].
    repeat split.
Qed.

(** ** Countdown *)

Lemma countdown_running (k : nat) : forall timeLeft,
  (Z.of_nat k < timeLeft)%Z ->
  countdown k timeLeft = ((timeLeft - Z.of_nat k)%Z, false).
Proof.
  induction k as [|k IH]; intros timeLeft H.
  - simpl. f_equal. lia.
  - cbn [countdown]. unfold timerTick.
    destruct (Z.leb_spec timeLeft 1) as [Hle|Hgt]; [lia|].
    rewrite IH by lia. f_equal. lia.
Qed.

Lemma countdown_elapsed (k : nat) : forall timeLeft,
  (1 <= timeLeft <= Z.of_nat k)%Z -> countdown k timeLeft = (0%Z, true).
Proof.
  induction k as [|k IH]; intros timeLeft H; [lia|].
  cbn [countdown]. unfold timerTick.
  destruct (Z.leb_spec timeLeft 1) as [Hle|Hgt]; [reflexivity|].
  apply IH. lia.
Qed.

(** X15. The countdown of a challenge: the time limit is 10 s for RUN,
    6 s for TILT, 8 s for ROTATE and DIRECTION and 15 s otherwise; after
    [k] firings of the one-second interval with [k] below the limit the
    time left is [limit - k] and the challenge has not been failed; with
    [k] at or beyond the limit the challenge has been failed and the time
    left is 0. *)
Theorem countdown_fails_at_the_limit challenge k :
  let limit := timeLimitOf challenge in
  (6 <= limit <= 15)%Z
  /\ ((Z.of_nat k < limit)%Z -> countdown k limit = ((limit - Z.of_nat k)%Z, false))
  /\ ((limit <= Z.of_nat k)%Z -> countdown k limit = (0%Z, true)).
Proof.
  cbv zeta.
  assert (H : (6 <= timeLimitOf challenge <= 15)%Z).
  { unfold timeLimitOf.
    repeat match goal with |- context [if ?c then _ else _] => destruct c end; lia. }
  split; [exact H|]. split.
  - apply countdown_running.
  - intro Hk. apply countdown_elapsed. lia.
Qed.

(** ** Session, results and history *)

Lemma sumScores_app l1 l2 :
  sumScores (l1 ++ l2) = (sumScores l1 + sumScores l2)%Z.
Proof.
  induction l1 as [|e l1 IH]; simpl; [reflexivity|]. rewrite IH. lia.
Qed.

Lemma filter_length_app {A : Type} (f : A -> bool) (l : list A) (a : A) :
  List.length (filter f (l ++ [a]))
  = (List.length (filter f l) + if f a then 1 else 0)%nat.
Proof.
  rewrite filter_app, length_app. simpl. destruct (f a); reflexivity.
Qed.

(** What a run of events adds to a session. *)
Lemma fold_handle events : forall s,
  let s' := fold_left handle events s in
  score s' = (score s + fold_right Z.add 0%Z (map eventPoints events))%Z
  /\ sumScores (sessionChallenges s')
     = (sumScores (sessionChallenges s)
        + fold_right Z.add 0%Z (map eventPoints events))%Z
  /\ List.length (sessionChallenges s')
     = (List.length (sessionChallenges s) + List.length events)%nat
  /\ List.length (filter entry_completed (sessionChallenges s'))
     = (List.length (filter entry_completed (sessionChallenges s))
        + List.length (filter isCompletedEvent events))%nat
  /\ (exists added, sessionChallenges s' = (sessionChallenges s ++ added)%list)
  /\ (Forall (fun c => entry_completed c && entry_skipped c = false)
        (sessionChallenges s) ->
      Forall (fun c => entry_completed c && entry_skipped c = false)
        (sessionChallenges s')).
Proof.
  induction events as [|e events IH]; intro s; cbv zeta.
  - cbn. repeat split; try lia; try (exists []; now rewrite app_nil_r). auto.
  - cbn [fold_left map fold_right List.length filter].
    destruct (IH (handle s e)) as [H1 [H2 [H3 [H4 [[added H5] H6]]]]].
    rewrite H1, H2, H3, H4.
    destruct e as [c points timeLeft|c|c timeLeft];
      cbn [handle challengeCompleted challengeFailed skipChallenge score
             sessionChallenges eventPoints isCompletedEvent] in *;
      rewrite ?sumScores_app, ?length_app, ?filter_length_app;
      cbn [sumScores fold_right entry_score entry_completed List.length];
      (repeat split; try lia;
       [ eexists; rewrite H5, <- app_assoc; reflexivity
       | intro Hf; apply H6, Forall_app; split; [exact Hf|];
         constructor; [reflexivity|constructor] ]).
Qed.

Lemma stats_partition (l : list SessionEntry) :
  Forall (fun c => entry_completed c && entry_skipped c = false) l ->
  List.length l
  = (List.length (filter entry_completed l)
     + List.length
         (filter (fun c => negb (entry_completed c) && negb (entry_skipped c)) l)
     + List.length (filter entry_skipped l))%nat.
Proof.
  induction 1 as [|c l Hc Hl IH]; [reflexivity|].
  cbn [filter List.length].
  destruct (entry_completed c), (entry_skipped c); try discriminate;
    cbn [negb andb List.length]; lia.
Qed.

(** X16. After any sequence of completions, failures and skips that
    follows [startNewSession]: the session score is the sum of the scores
    of its entries, which is the sum of the points of the completions;
    there is one entry per event, in the order of the events; and the
    statistics of the result screen count each entry once, as completed,
    failed or skipped, with an accuracy between 0 and 100. *)
Theorem session_score_and_stats events :
  let s := playSession events in
  let stats := resultStats (sessionChallenges s) in
  score s = sumScores (sessionChallenges s)
  /\ score s = fold_right Z.add 0%Z (map eventPoints events)
  /\ map entry_score (sessionChallenges s) = map eventPoints events
  /\ total stats = List.length events
  /\ completedCount stats = List.length (filter isCompletedEvent events)
  /\ total stats = (completedCount stats + failedCount stats + skippedCount stats)%nat
  /\ (0 <= accuracy stats <= 100)%Z.
Proof.
  cbv zeta. unfold playSession.
  destruct (fold_handle events startNewSession) as [H1 [H2 [H3 [H4 [_ H6]]]]].
  cbn [score sessionChallenges startNewSession sumScores fold_right List.length
         filter] in *.
  set (s := fold_left handle events startNewSession) in *.
  assert (Hpart := stats_partition (sessionChallenges s) (H6 (Forall_nil _))).
  assert (Hmap : forall evs s0,
             map entry_score (sessionChallenges (fold_left handle evs s0))
             = (map entry_score (sessionChallenges s0) ++ map eventPoints evs)%list).
  { induction evs as [|e evs IH]; intro s0; cbn [fold_left map].
    - now rewrite app_nil_r.
    - rewrite IH. destruct e; cbn [handle challengeCompleted challengeFailed
                                     skipChallenge sessionChallenges eventPoints];
        rewrite map_app, <- app_assoc; reflexivity. }
  split; [lia|]. split; [lia|].
  split; [exact (Hmap events startNewSession)|].
  split; [exact H3|]. split; [exact H4|]. split; [exact Hpart|].
  unfold resultStats. cbn [accuracy].
  destruct (Nat.ltb_spec 0 (List.length (sessionChallenges s))) as [Hpos|_]; [|lia].
  assert (Hle : (List.length (filter entry_completed (sessionChallenges s))
                 <= List.length (sessionChallenges s))%nat) by apply filter_length_le.
  apply Math_round_between.
  - change (inject_Z 0) with 0.
    apply Qmult_le_0_compat; [|discriminate].
    apply Qle_shift_div_l; unfold num;
      [change 0 with (inject_Z 0); rewrite <- Zlt_Qlt; lia|].
    rewrite Qmult_0_l. change 0 with (inject_Z 0). rewrite <- Zle_Qle. lia.
  - change (inject_Z 100) with (1 * 100).
    apply Qmult_le_compat_r; [|discriminate].
    apply Qle_shift_div_r; unfold num;
      [change 0 with (inject_Z 0); rewrite <- Zlt_Qlt; lia|].
    rewrite Qmult_1_l, <- Zle_Qle. lia.
Qed.

Lemma sliceLast_length {A : Type} (n : nat) (l : list A) :
  List.length (sliceLast n l) = Nat.min n (List.length l).
Proof. unfold sliceLast. rewrite length_skipn. lia. Qed.

Lemma sliceLast_suffix {A : Type} (n : nat) (l : list A) :
  (firstn (List.length l - n) l ++ sliceLast n l)%list = l.
Proof. unfold sliceLast. apply firstn_skipn. Qed.

Lemma sliceLast_snoc {A : Type} (n : nat) (l : list A) (a : A) :
  (0 < n)%nat ->
  exists kept, sliceLast n (l ++ [a]) = (kept ++ [a])%list
               /\ kept = sliceLast (n - 1) l.
Proof.
  intro Hn. unfold sliceLast. rewrite length_app. cbn [List.length].
  exists (skipn (List.length l - (n - 1)) l). split; [|reflexivity].
  replace (List.length l + 1 - n)%nat with (List.length l - (n - 1))%nat by lia.
  rewrite skipn_app.
  replace (List.length l - (n - 1) - List.length l)%nat with 0%nat by lia.
  reflexivity.
Qed.

(** X17. [saveChallenge] appends the new record and keeps the 50 most
    recent: the stored history is the last 50 records of the old history
    followed by the new one, so it ends with the new record, has
    [min(50, n + 1)] records when there were [n], keeps the order of the
    records it keeps (they are the last 49 of the old history), and loses
    nothing while there were fewer than 50.  [clearHistory] leaves an
    empty history. *)
Theorem saveChallenge_keeps_last_50 challengeData h :
  let before := getHistory h in
  let after := getHistory (saveChallenge challengeData h) in
  after = (sliceLast 49 before ++ [challengeData])%list
  /\ List.length after = Nat.min 50 (List.length before + 1)
  /\ ((List.length before < 50)%nat -> after = (before ++ [challengeData])%list)
  /\ (exists dropped, (before ++ [challengeData])%list = (dropped ++ after)%list
                      /\ List.length dropped = (List.length before + 1 - 50)%nat)
  /\ getHistory (clearHistory (saveChallenge challengeData h)) = [].
Proof.
  cbv zeta. unfold saveChallenge. cbn [getHistory].
  destruct (sliceLast_snoc 50 (getHistory h) challengeData) as [kept [Hk ->]]; [lia|].
  cbn [Nat.sub] in Hk. split; [exact Hk|]. split.
  - rewrite sliceLast_length, length_app. reflexivity.
  - split.
    + intro Hlt. rewrite Hk. unfold sliceLast.
      replace (List.length (getHistory h) - 49)%nat with 0%nat by lia. reflexivity.
    + split; [|reflexivity].
      exists (firstn (List.length (getHistory h ++ [challengeData]) - 50)
                (getHistory h ++ [challengeData])).
      split.
      * symmetry. apply sliceLast_suffix.
      * rewrite length_firstn, length_app. cbn [List.length]. lia.
Qed.

(** X18. [endSession] saves a session that has at least one entry as one
    record, the last of the history, whose score is the sum of the points
    of the completions of the session and whose [totalChallenges] is the
    number of its entries; it leaves the history alone when the session
    has no entry. *)
Theorem endSession_saves_the_session date events h :
  let s := playSession events in
  (events <> [] ->
   let saved := getHistory (endSession date s h) in
   exists kept,
     saved = (kept ++ [mkRecord date (score s) (sessionChallenges s)
                         (List.length (sessionChallenges s))])%list
     /\ score s = fold_right Z.add 0%Z (map eventPoints events)
     /\ List.length (sessionChallenges s) = List.length events
     /\ (List.length saved <= 50)%nat)
  /\ (events = [] -> endSession date s h = h).
Proof.
  cbv zeta. unfold playSession.
  destruct (fold_handle events startNewSession) as [H1 [_ [H3 _]]].
  cbn [score sessionChallenges startNewSession List.length] in *.
  split.
  - intro Hne. unfold endSession.
    assert (Hlen : (0 < List.length events)%nat)
      by (destruct events; [contradiction|simpl; lia]).
    destruct (Nat.ltb_spec 0
                (List.length (sessionChallenges (fold_left handle events startNewSession))))
      as [_|Hz]; [|lia].
    unfold saveChallenge. cbn [getHistory].
    destruct (sliceLast_snoc 50 (getHistory h)
                (mkRecord date (score (fold_left handle events startNewSession))
                   (sessionChallenges (fold_left handle events startNewSession))
                   (List.length
                      (sessionChallenges (fold_left handle events startNewSession)))))
      as [kept [Hk _]]; [lia|].
    exists kept. split; [exact Hk|]. split; [lia|]. split; [lia|].
    rewrite sliceLast_length. lia.
  - intros ->. reflexivity.
Qed.

(** ** Compass name *)

Lemma headingDiff_within (a b c : Q) :
  c < 180 ->
  Qabs (a - b) <= c \/ 360 - c <= Qabs (a - b) ->
  headingDiff a b <= c.
Proof.
  intros Hc H. unfold headingDiff, Math_abs.
  destruct (gt (Qabs (a - b)) 180) eqn:E.
  - apply gt_true_iff in E. destruct H as [H|H]; lra.
  - apply gt_false_iff in E. destruct H as [H|H]; lra.
Qed.

(** X20. The compass name the sensor display shows agrees with the
    headings the DIRECTION detector aims at: for every heading between 0
    and 360 degrees a name is shown, and the shorter-arc difference
    between the heading and the target heading of that name is at most
    22.5 degrees. *)
Theorem getDirectionName_is_nearest_point (heading : Q) :
  0 <= heading -> heading <= 360 ->
  exists name,
    getDirectionName heading = Some name
    /\ headingDiff heading (getHeadingFromDirection (DirLabel name)) <= 22.5.
Proof.
  intros H0 H1. unfold getDirectionName, Math_round.
  set (k := Qfloor (heading / 45 + (1 # 2))).
  assert (Hlo : inject_Z k <= heading / 45 + (1 # 2)) by apply Qfloor_le.
  assert (Hhi : heading / 45 + (1 # 2) < inject_Z (k + 1)) by apply Qlt_floor.
  assert (Hq : heading / 45 == heading * (1 # 45)) by (unfold Qdiv; reflexivity).
  rewrite Hq in Hlo, Hhi. rewrite inject_Z_plus in Hhi.
  change (inject_Z 1) with 1 in Hhi.
  assert (Hk : (0 <= k <= 8)%Z).
  { split.
    - assert (H : inject_Z (-1) < inject_Z k)
        by (change (inject_Z (-1)) with (-1 # 1); lra).
      rewrite <- Zlt_Qlt in H. lia.
    - assert (H : inject_Z k < inject_Z 9) by (change (inject_Z 9) with 9; lra).
      rewrite <- Zlt_Qlt in H. lia. }
  assert (Hcases : (k = 0 \/ k = 1 \/ k = 2 \/ k = 3 \/ k = 4 \/ k = 5 \/ k = 6
                    \/ k = 7 \/ k = 8)%Z) by lia.
  clearbody k.
  destruct Hcases as [->|[->|[->|[->|[->|[->|[->|[->| ->]]]]]]]];
    eexists; (split; [reflexivity|]);
    match goal with
    | |- headingDiff _ (getHeadingFromDirection (DirLabel ?n)) <= _ =>
        let t := eval vm_compute in (getHeadingFromDirection (DirLabel n)) in
        change (getHeadingFromDirection (DirLabel n)) with t
    end;
    apply headingDiff_within; try reflexivity;
    match goal with
    | H : inject_Z ?z <= _ |- _ =>
        let v := eval vm_compute in (inject_Z z) in change (inject_Z z) with v in *
    end.
  - left. apply Qabs_Qle_condition. split; lra.
  - left. apply Qabs_Qle_condition. split; lra.
  - left. apply Qabs_Qle_condition. split; lra.
  - left. apply Qabs_Qle_condition. split; lra.
  - left. apply Qabs_Qle_condition. split; lra.
  - left. apply Qabs_Qle_condition. split; lra.
  - left. apply Qabs_Qle_condition. split; lra.
  - left. apply Qabs_Qle_condition. split; lra.
  - right. apply Qle_trans with (heading - 0); [lra|apply Qle_Qabs].
Qed.

(** ** History screen against result screen *)

Lemma Math_round_mono (a b : Q) : a <= b -> (Math_round a <= Math_round b)%Z.
Proof. intro H. unfold Math_round. apply Qfloor_resp_le. lra. Qed.

Lemma positive_scores_are_completions events : forall s,
  Forall (fun c => (0 <? entry_score c)%Z = true -> entry_completed c = true)
    (sessionChallenges s) ->
  Forall (fun c => (0 <? entry_score c)%Z = true -> entry_completed c = true)
    (sessionChallenges (fold_left handle events s)).
Proof.
  induction events as [|e events IH]; intros s H; [exact H|].
  cbn [fold_left]. apply IH.
  destruct e; cbn [handle challengeCompleted challengeFailed skipChallenge
                     sessionChallenges];
    apply Forall_app; (split; [exact H|]); constructor; try constructor;
    cbn [entry_score entry_completed]; auto; discriminate.
Qed.

Lemma filter_length_implies {A : Type} (f g : A -> bool) (l : list A) :
  Forall (fun a => f a = true -> g a = true) l ->
  (List.length (filter f l) <= List.length (filter g l))%nat.
Proof.
  induction 1 as [|a l Ha Hl IH]; [reflexivity|].
  cbn [filter]. destruct (f a) eqn:Ef.
  - rewrite (Ha eq_refl). cbn [List.length]. lia.
  - destruct (g a); cbn [List.length]; lia.
Qed.

(** X21. For the record of a session, the history screen counts as
    completed the entries with a positive score and the result screen the
    entries flagged completed: the first count never exceeds the second (a
    completion that earned 0 points is missing from it), both screens
    divide by the number of entries, and so the completion rate of the
    history screen is at most the accuracy of the result screen. *)
Theorem history_rate_at_most_accuracy date events :
  let s := playSession events in
  let item :=
    mkRecord date (score s) (sessionChallenges s)
      (List.length (sessionChallenges s)) in
  let stats := resultStats (sessionChallenges s) in
  (historyCompleted item <= completedCount stats)%nat
  /\ historyTotal item = total stats
  /\ (completionRate item <= accuracy stats)%Z.
Proof.
  cbv zeta. unfold playSession.
  set (s := fold_left handle events startNewSession).
  assert (Hc : (historyCompleted
                  (mkRecord date (score s) (sessionChallenges s)
                     (List.length (sessionChallenges s)))
                <= List.length (filter entry_completed (sessionChallenges s)))%nat).
  { unfold historyCompleted. cbn [record_challenges].
    apply filter_length_implies.
    apply (positive_scores_are_completions events startNewSession). constructor. }
  assert (Ht : historyTotal
                 (mkRecord date (score s) (sessionChallenges s)
                    (List.length (sessionChallenges s)))
               = List.length (sessionChallenges s)).
  { unfold historyTotal. cbn [record_totalChallenges record_challenges].
    destruct (Nat.eqb_spec (List.length (sessionChallenges s)) 0); reflexivity. }
  split; [exact Hc|]. split; [exact Ht|].
  unfold completionRate, resultStats. cbn [accuracy]. rewrite Ht.
  destruct (Nat.ltb_spec 0 (List.length (sessionChallenges s))) as [Hpos|_]; [|lia].
  apply Math_round_mono. apply Qmult_le_compat_r; [|discriminate].
  assert (Hn : 0 < num (List.length (sessionChallenges s)))
    by (unfold num; change 0 with (inject_Z 0); rewrite <- Zlt_Qlt; lia).
  unfold Qdiv. apply Qmult_le_compat_r;
    [|apply Qinv_le_0_compat, Qlt_le_weak, Hn].
  unfold num. rewrite <- Zle_Qle. lia.
Qed.

(** ** DIRECTION detector: no completion within two seconds *)

Section HoldProperties.

Variable Math_atan2 : Q -> Q -> Q.

Local Abbreviation verifyDirection := (verifyDirectionChallenge Math_atan2).
Local Abbreviation pollDir := (pollDirection Math_atan2).

Lemma direction_tick_within challenge magnet T t0 now st :
  (t0 <= now < t0 + 2000)%Z ->
  (directionMatched st = true -> (t0 <= lastDirectionMatchTime st)%Z) ->
  let t := verifyDirection challenge magnet T now st in
  completedOf t = false
  /\ (directionMatched (tracking t) = true ->
      (t0 <= lastDirectionMatchTime (tracking t))%Z).
Proof.
  intros Hnow Hinv. cbv zeta.
  destruct (isMatchedOf Math_atan2 challenge magnet T) eqn:Em.
  - destruct (directionMatched st) eqn:Ed.
    + rewrite (direction_holding Math_atan2) by (try assumption; specialize (Hinv eq_refl); lia).
      split; [reflexivity|]. cbn [tracking returns]. rewrite Ed. exact Hinv.
    + rewrite (direction_first_match Math_atan2) by assumption.
      split; [reflexivity|]. cbn. intros _. lia.
  - rewrite (direction_lost Math_atan2) by assumption.
    split; [reflexivity|]. cbn. discriminate.
Qed.

(** X22. A DIRECTION challenge cannot complete in less than two seconds:
    from a state with no match in progress (a reset state, for one),
    whatever the samples, on ticks whose clock values all lie within a
    window shorter than 2000 ms, no tick completes. *)
Theorem direction_needs_two_seconds challenge T t0 samples :
  Forall (fun s => (t0 <= fst s < t0 + 2000)%Z) samples ->
  forall st,
    directionMatched st = false ->
    Forall (fun t => completedOf t = false) (pollDir challenge T samples st).
Proof.
  intros Hall.
  assert (Hgen : forall st,
             (directionMatched st = true -> (t0 <= lastDirectionMatchTime st)%Z) ->
             Forall (fun t => completedOf t = false) (pollDir challenge T samples st)).
  { induction Hall as [|[now magnet] rest Hnow Hrest IH]; intros st Hinv;
      [constructor|].
    rewrite (pollDirection_cons Math_atan2).
    destruct (direction_tick_within challenge magnet T t0 now st Hnow Hinv)
      as [Hc Hinv'].
    constructor; [exact Hc|]. apply IH. exact Hinv'. }
  intros st Hd. apply Hgen. rewrite Hd. discriminate.
Qed.

End HoldProperties.

(** ** The further theorems applied to concrete inputs *)

(** X14 on a completion worth half the points, and on the tick that
    counts the third step of the first RUN template. *)
Lemma completion_points_witness :
  (0 <= pointsOf (mkResult true 0.5) <= 100)%Z
  /\ completionPoints
       (verifyRunChallenge sqrtQ runInPlace (mkVec3 0 0 1.5) (adjustedThresholds 1)
          (set_stepCount 2 initialTracking))
     = Some 100%Z.
Proof.
  split.
  - apply (proj1 (completion_points sqrtQ atan2Degrees)); discriminate.
  - apply (proj1 (proj2 (completion_points sqrtQ atan2Degrees))).
    + intros goal H. injection H as <-. reflexivity.
    + reflexivity.
Defined.

(** X15 on the six seconds of a TILT challenge. *)
Lemma countdown_fails_at_the_limit_witness :
  countdown 5 (timeLimitOf tiltLeftRight) = (1%Z, false)
  /\ countdown 6 (timeLimitOf tiltLeftRight) = (0%Z, true).
Proof.
  split.
  - apply (proj1 (proj2 (countdown_fails_at_the_limit tiltLeftRight 5))).
    reflexivity.
  - apply (proj2 (proj2 (countdown_fails_at_the_limit tiltLeftRight 6))).
    discriminate.
Defined.

(** X17 on an empty history. *)
Lemma saveChallenge_keeps_last_50_witness :
  getHistory (saveChallenge (mkRecord "2024-01-01" 100 [] 0) None)
  = [mkRecord "2024-01-01" 100 [] 0].
Proof.
  apply (proj1 (proj2 (proj2 (saveChallenge_keeps_last_50
                                (mkRecord "2024-01-01" 100 [] 0) None)))).
  simpl. lia.
Defined.

(** X18 on a session of one completion and one skip. *)
Lemma endSession_saves_the_session_witness :
  let events := [Completed runInPlace 100 4; Skipped tiltLeftRight 6] in
  exists kept,
    getHistory (endSession "2024-01-01" (playSession events) None)
    = (kept ++ [mkRecord "2024-01-01" 100
                  (sessionChallenges (playSession events)) 2])%list.
Proof.
  cbv zeta.
  destruct (proj1 (endSession_saves_the_session "2024-01-01"
                     [Completed runInPlace 100 4; Skipped tiltLeftRight 6] None))
    as [kept [H _]]; [discriminate|].
  exists kept. exact H.
Defined.

(** X20 on the heading 350, shown as N. *)
Lemma getDirectionName_is_nearest_point_witness :
  exists name,
    getDirectionName 350 = Some name
    /\ headingDiff 350 (getHeadingFromDirection (DirLabel name)) <= 22.5.
Proof.
  apply (getDirectionName_is_nearest_point 350); discriminate.
Defined.

(** X22 on three matched ticks within 1.9 s. *)
Lemma direction_needs_two_seconds_witness :
  Forall (fun t => completedOf t = false)
    (pollDirection atan2Degrees faceNorth (adjustedThresholds 1)
       [(1000, mkVec3 0 10 0); (2000, mkVec3 0 10 0); (2900, mkVec3 0 10 0)]%Z
       initialTracking).
Proof.
  apply (direction_needs_two_seconds atan2Degrees faceNorth (adjustedThresholds 1)
           1000%Z).
  - repeat constructor; cbn; lia.
  - reflexivity.
Defined.

(** ** Completion scores of the four detectors and of the fallback *)

Section CompletionScores.

Variable Math_sqrt : Q -> Q.
Variable Math_atan2 : Q -> Q -> Q.

(** C10, as the code has it. Whenever the RUN detector, on a challenge
    whose step goal is positive, or the TILT detector (hold mode or
    sequence mode) returns [completed = true], the performance it returns
    is exactly 1: RUN completes only with a step count at or above the
    goal, where [min(1, count/goal)] is 1, and both completions of TILT
    return the constant 1.  Of the four detectors only ROTATE and
    DIRECTION complete below 1: ROTATE whenever the total has gone past
    the goal, DIRECTION whenever the heading is off the target.  The
    fallback check of a challenge of unknown type completes with 0.7. *)
Theorem run_and_tilt_complete_with_performance_one :
  (forall challenge accel T st r,
      (forall goal, count challenge = Some goal -> 0 < goal) ->
      outcome (verifyRunChallenge Math_sqrt challenge accel T st) = Normal r ->
      completed r = true -> performance r = 1)
  /\ (forall challenge gyro T now st r,
         outcome (verifyTiltChallenge challenge gyro T now st) = Normal r ->
         completed r = true -> performance r = 1)
  /\ (forall challenge gyro T st r goal,
         degrees challenge = Some goal -> 0 < goal ->
         goal < rotationAfter challenge gyro T st ->
         outcome (verifyRotateChallenge challenge gyro T st) = Normal r ->
         completed r = true /\ performance r < 1)
  /\ (forall challenge magnet T now st r,
         0 < toleranceOf challenge T ->
         0 < diffOf Math_atan2 challenge magnet ->
         outcome (verifyDirectionChallenge Math_atan2 challenge magnet T now st)
         = Normal r ->
         completed r = true -> performance r < 1)
  /\ (forall challenge sensorData m now st r,
         typeIs challenge CHALLENGE_TYPES.RUN = false ->
         typeIs challenge CHALLENGE_TYPES.ROTATE = false ->
         typeIs challenge CHALLENGE_TYPES.TILT = false ->
         typeIs challenge CHALLENGE_TYPES.DIRECTION = false ->
         outcome (verifyChallengeCompletion Math_sqrt Math_atan2 (Some challenge)
                    (Some sensorData) m now st) = Normal r ->
         completed r = true -> performance r = 0.7).
Proof.
  split; [|split; [|split; [|split]]].
  - intros challenge accel T st r. apply run_completes_with_one.
  - intros challenge gyro T now st r. apply tilt_completes_with_one.
  - intros challenge gyro T st r goal Hd Hg Hover.
    rewrite rotate_tick_shape, Hd. cbn [numberOf truthy].
    assert (Hne : Qeq_bool goal 0 = false).
    { destruct (Qeq_bool goal 0) eqn:E; [|reflexivity].
      apply Qeq_bool_iff in E. rewrite E in Hg. discriminate. }
    rewrite Hne. cbn [negb andb].
    assert (Hge : ge (rotationAfter challenge gyro T st) goal = true)
      by (apply ge_true_iff; lra).
    rewrite Hge. cbn [outcome returns]. intro Hr. injection Hr as <-.
    cbn [completed performance]. split; [reflexivity|].
    apply Qle_lt_trans with (goal / rotationAfter challenge gyro T st).
    + unfold Math_min. apply Q.le_min_r.
    + apply Qlt_shift_div_r; lra.
  - intros challenge magnet T now st r Htol Hdiff.
    unfold verifyDirectionChallenge.
    destruct (isMatchedOf Math_atan2 challenge magnet T);
      [destruct (negb (directionMatched st)); [|destruct (ge _ 2)]|];
      cbn [outcome returns]; intros Hr Hc; injection Hr as <-;
      cbn [completed performance] in *; try discriminate.
    assert (H : 0 < diffOf Math_atan2 challenge magnet / toleranceOf challenge T)
      by (apply Qlt_shift_div_l; lra).
    lra.
  - intros challenge sensorData m now st r H1 H2 H3 H4.
    unfold verifyChallengeCompletion. rewrite H1, H2, H3, H4.
    destruct (gt _ _); cbn [outcome returns]; intros Hr Hc; injection Hr as <-;
      [reflexivity|discriminate].
Qed.

End CompletionScores.

(** C10 as the specification states it, refuted. A RUN challenge with the
    step goal -1: on the first counted step the counter, 1, is at or above
    the goal, the tick completes, and its performance is
    [min(1, 1 / -1) = -1]. *)
Lemma run_negative_goal_completes_below_one :
  let challenge :=
    withType (Some CHALLENGE_TYPES.RUN)
      (Some (runTemplate "Negative goal" (-1) 1.2 "")) in
  let t :=
    verifyRunChallenge sqrtQ challenge (mkVec3 0 0 1.5) (adjustedThresholds 1)
      initialTracking in
  exists r,
    outcome t = Normal r
    /\ count challenge = Some (-1)
    /\ completed r = true
    /\ performance r == -1
    /\ ~ performance r == 1.
Proof.
  cbv zeta. eexists. split; [reflexivity|]. split; [reflexivity|].
  split; [reflexivity|]. split; [reflexivity|]. vm_compute. discriminate.
Qed.

(** C10 as amended, on a RUN tick that reaches a goal of one step, the
    TILT tick that completes left, right, a ROTATE tick that takes the
    total from 355 past 360 degrees, and a DIRECTION tick that completes
    10 degrees off target. *)
Lemma run_and_tilt_complete_with_performance_one_witness :
  let T := adjustedThresholds 1 in
  let oneStep := runTemplate "One step" 1 1.2 "" in
  (exists r,
      outcome (verifyRunChallenge sqrtQ oneStep (mkVec3 0 0 1.5) T initialTracking)
      = Normal r /\ completed r = true /\ performance r = 1)
  /\ (exists r,
         outcome (verifyTiltChallenge tiltLeftRight tiltRight T 200
                    (set_tiltStates ["left"] initialTracking))
         = Normal r /\ completed r = true /\ performance r = 1)
  /\ (exists r,
         outcome (verifyRotateChallenge rotateClockwise (mkVec3 0 0 1) T
                    (set_rotationProgress 355 initialTracking))
         = Normal r /\ completed r = true /\ performance r < 1)
  /\ (exists r,
         outcome (verifyDirectionChallenge atan2Degrees faceNorth (mkVec3 0 10 0) T
                    3000
                    (set_lastDirectionMatchTime 1000%Z
                       (set_directionMatched true initialTracking)))
         = Normal r /\ completed r = true /\ performance r < 1).
Proof.
  cbv zeta. split; [|split; [|split]].
  - eexists. split; [reflexivity|]. split; [reflexivity|].
    apply (proj1 (run_and_tilt_complete_with_performance_one sqrtQ atan2Degrees)
             (runTemplate "One step" 1 1.2 "") (mkVec3 0 0 1.5)
             (adjustedThresholds 1) initialTracking);
      try reflexivity.
    intros goal H. injection H as <-. reflexivity.
  - eexists. split; [reflexivity|]. split; [reflexivity|].
    apply (proj1 (proj2 (run_and_tilt_complete_with_performance_one sqrtQ
                           atan2Degrees))
             tiltLeftRight tiltRight (adjustedThresholds 1) 200%Z
             (set_tiltStates ["left"] initialTracking));
      reflexivity.
  - eexists. split; [reflexivity|].
    apply (proj1 (proj2 (proj2 (run_and_tilt_complete_with_performance_one sqrtQ
                                  atan2Degrees)))
             rotateClockwise (mkVec3 0 0 1) (adjustedThresholds 1)
             (set_rotationProgress 355 initialTracking) _ 360);
      reflexivity.
  - eexists. split; [reflexivity|]. split; [reflexivity|].
    apply (proj1 (proj2 (proj2 (proj2
                   (run_and_tilt_complete_with_performance_one sqrtQ atan2Degrees))))
             faceNorth (mkVec3 0 10 0) (adjustedThresholds 1) 3000%Z
             (set_lastDirectionMatchTime 1000%Z
                (set_directionMatched true initialTracking)));
      reflexivity.
Defined.

(** ** The settings screen reloaded *)

(** X19. [loadSettings] never gets to the stored difficulty: after the
    sound setting has been read, the stray identifier of line 1231 raises
    and the [catch] ends the load.  So for every stored sound setting and
    every stored difficulty the load reports an error, sets the sound
    switch from the storage and leaves the displayed difficulty as it
    was; a settings screen opened after [changeDifficulty] has stored any
    value shows "medium", also when the stored sensitivity is that of
    "easy" or "hard". *)
Theorem loadSettings_leaves_difficulty soundSetting storage :
  (forall s,
      let (s', caught) := loadSettings soundSetting storage s in
      caught = true
      /\ difficulty s' = difficulty s
      /\ soundEnabled s'
         = match soundSetting with
           | None => true
           | Some text => String.eqb text "true"
           end)
  /\ (forall value,
         difficulty
           (fst (loadSettings soundSetting (changeDifficulty value storage)
                   initialSettingsScreen)) = "medium")
  /\ difficultyOf (getDifficultySettings (changeDifficulty "easy" storage)) = "easy"
  /\ difficultyOf (getDifficultySettings (changeDifficulty "hard" storage)) = "hard".
Proof.
  split; [|split; [|split]]; try reflexivity.
  intro s. cbn. repeat split.
Qed.
